(** * main/logger.py: call logging and training-report logging

    A shallow embedding of the two decorators [log] and [log_train], of the
    logger bootstrap [load_base_loggers_config] and of the level resolver
    [get_level], followed by the properties the specification states about
    them.

    Conventions of the embedding.
    - Python values that reach the decorators are [PyVal]s; a pandas Series is
      a name and a list of scalars (integer class codes or text).
    - A computation is a function from the [World] to an [Outcome]: a normal
      return or a raised exception, each with the world it leaves behind.
    - The logging module is modelled by its registry of named loggers (a
      logger object is shared by name, so a handle is the name), by the
      directories under logs/ and by the lines of every log file.
    - The wrapped function, pickle, scikit-learn, the clock and the text
      renderings of values are collaborators outside the module: they are the
      fields of [Externals] and act on an external state the module never
      inspects. Every call the decorators make to them is recorded, in order,
      in [w_calls]. Collaborators do not touch the logging registry nor the
      logs/ directory, and do not change a Series in place.
    - A record goes to the handlers of the logger it is handed to (the root
      logger has none); the rotation of the log file is left out, and a log
      file is the list of the lines written to it. *)

From Stdlib Require Import ZArith Ascii String List.
From stdpp Require Import gmap strings list sorting pretty.

Local Open Scope string_scope.
Local Open Scope list_scope.
Local Open Scope Z_scope.

(** ** Text helpers *)

Definition nl : string := String (ascii_of_nat 10) EmptyString.

(** [str.lower] on the ASCII letters; other bytes are left as they are. For
    the two needles searched by [log_train] this is all of [str.lower] that
    matters. *)
Definition lower_ascii (c : ascii) : ascii :=
  let n := nat_of_ascii c in
  if ((65 <=? n)%nat && (n <=? 90)%nat)%bool then ascii_of_nat (n + 32) else c.

Fixpoint lower (s : string) : string :=
  match s with
  | EmptyString => EmptyString
  | String c s' => String (lower_ascii c) (lower s')
  end.

(** [needle in hay] on strings. *)
Fixpoint contains (needle hay : string) : bool :=
  if String.prefix needle hay then true
  else match hay with
       | EmptyString => false
       | String _ hay' => contains needle hay'
       end.

(** ** Values *)

Inductive Scalar : Type :=
| SInt (z : Z)
| SStr (s : string).

Global Instance Scalar_eq_dec : EqDecision Scalar.
Proof. solve_decision. Defined.

Inductive PyVal : Type :=
| VNone
| VInt (z : Z)
| VStr (s : string)
| VSeries (name : string) (values : list Scalar).

Definition Kwargs : Type := list (string * PyVal).

(** ** Exceptions *)

(** [except Exception] catches the subclasses of [Exception] only;
    [KeyboardInterrupt], [SystemExit] and [GeneratorExit] derive from
    [BaseException] directly. *)
Inductive ExcClass : Type :=
| KeyboardInterrupt
| SystemExit
| GeneratorExit
| ExceptionSub (name : string).

Record PyExc : Type := mkExc { exc_class : ExcClass; exc_msg : string }.

Definition isinstance_Exception (e : PyExc) : bool :=
  match exc_class e with
  | ExceptionSub _ => true
  | _ => false
  end.

Definition IndexError (msg : string) : PyExc := mkExc (ExceptionSub "IndexError") msg.
Definition AttributeError (msg : string) : PyExc := mkExc (ExceptionSub "AttributeError") msg.
Definition TypeError (msg : string) : PyExc := mkExc (ExceptionSub "TypeError") msg.
Definition KeyError (msg : string) : PyExc := mkExc (ExceptionSub "KeyError") msg.

(** ** Outcomes *)

Inductive Outcome (S A : Type) : Type :=
| Return (a : A) (s : S)
| Raise (e : PyExc) (s : S).
Arguments Return {S A} a s.
Arguments Raise {S A} e s.

Definition state_of {S A} (o : Outcome S A) : S :=
  match o with Return _ s => s | Raise _ s => s end.

Definition returned {S A} (o : Outcome S A) : option A :=
  match o with Return a _ => Some a | Raise _ _ => None end.

Definition raised {S A} (o : Outcome S A) : option PyExc :=
  match o with Return _ _ => None | Raise e _ => Some e end.

(** ** Level resolver *)

Module logging.
Definition NOTSET : Z := 0.
Definition INFO : Z := 20.
Definition ERROR : Z := 40.

(** [logging == s]: the module object compared with a [str]; neither side
    implements the comparison, so Python falls back to identity. *)
Definition module_eq_str (s : string) : bool := false.
End logging.

(** A logger object is shared through the registry of [logging]; a handle to
    it is its name. *)
Definition LoggerRef : Type := string.

Definition get_level (logger : LoggerRef) (level : string) : option Z :=
  if String.eqb level "INFO" then Some logging.INFO
  else if String.eqb level "ERROR" then Some logging.ERROR
  else if logging.module_eq_str "DO NOT LOG" then None
  else None.

(** ** The logging module, the logs/ directory and the session *)

Record Handler : Type := mkHandler
  { h_filename : string; h_maxBytes : Z; h_backupCount : Z }.

Record Logger : Type := mkLogger
  { lg_level : Z; lg_handlers : list Handler }.

(** One formatted line, [asctime - name - levelname - message]. *)
Record LogLine : Type := mkLine
  { ln_asctime : string; ln_name : string; ln_levelno : Z; ln_message : string }.

Record Logging : Type := mkLogging
  { registry : gmap string Logger;
    dirs : gset string;
    files : gmap string (list LogLine) }.

Definition set_registry (r : gmap string Logger) (L : Logging) : Logging :=
  mkLogging r (dirs L) (files L).
Definition set_dirs (d : gset string) (L : Logging) : Logging :=
  mkLogging (registry L) d (files L).
Definition set_files (f : gmap string (list LogLine)) (L : Logging) : Logging :=
  mkLogging (registry L) (dirs L) f.

(** What a log file holds, and the handlers of a named logger. *)
Definition lines_of (L : Logging) (path : string) : list LogLine :=
  default [] (files L !! path).

Definition logger_handlers (name : string) (L : Logging) : list Handler :=
  from_option lg_handlers [] (registry L !! name).

(** The flask session, as far as the module reads it:
    [session['config.ini']['DEFECT_ATTRIBUTES']['logging_level'][0]],
    [session['session_id']] and
    [session['predictions_parameters.ini']['predictions_parameters']]. *)
Record Session : Type := mkSession
  { logging_level : string;
    session_id : string;
    predictions_parameters : gmap string (list string) }.

(** ** Collaborators and the world *)

(** Calls that leave the module. *)
Inductive Event : Type :=
| CallFunc (name : string) (args : list PyVal) (kwargs : Kwargs)
| PickleLoad (path : string)
| CrossValPredict (X y : PyVal) (cv n_jobs : Z)
| ClassificationReport (y_true y_pred : list Scalar) (target_names : list string)
| AccuracyScore (y_true y_pred : list Scalar)
| RocAucScore (y_true y_pred : list Scalar)
| MatthewsCorrcoef (y_true y_pred : list Scalar).

Class Externals : Type := mkExternals
  { Ext : Type;                          (* state outside the module *)
    Model : Type;                        (* an unpickled estimator *)
    Score : Type;                        (* a metric value *)
    now : Ext -> Z;                      (* datetime.now() *)
    today : Ext -> string;               (* str(datetime.date(datetime.today())) *)
    asctime : Ext -> string;
    str_timedelta : Z -> string;
    str_score : Score -> string;
    str_val : PyVal -> string;
    str_args : list PyVal -> string;
    str_kwargs : Kwargs -> string;
    format_exc : PyExc -> string;        (* traceback.format_exc() *)
    pickle_load : string -> Ext -> Outcome Ext Model;
    cross_val_predict :
      Model -> PyVal -> PyVal -> Z -> Z -> Ext -> Outcome Ext (list Scalar);
    classification_report :
      list Scalar -> list Scalar -> list string -> Ext -> Outcome Ext string;
    accuracy_score : list Scalar -> list Scalar -> Ext -> Outcome Ext Score;
    roc_auc_score : list Scalar -> list Scalar -> Ext -> Outcome Ext Score;
    matthews_corrcoef : list Scalar -> list Scalar -> Ext -> Outcome Ext Score }.

Section Embedding.
Context `{X : Externals}.

(** A function handed to a decorator. *)
Record PyFunc : Type := mkFunc
  { f_module : string;
    f_name : string;
    f_call : list PyVal -> Kwargs -> Ext -> Outcome Ext PyVal }.

Record World : Type := mkWorld
  { w_session : Session;
    w_logging : Logging;
    w_ext : Ext;
    w_calls : list Event }.

Definition set_logging (L : Logging) (w : World) : World :=
  mkWorld (w_session w) L (w_ext w) (w_calls w).

(** ** The monad of the module's code *)

Definition Py (A : Type) : Type := World -> Outcome World A.

Definition ret {A} (a : A) : Py A := fun w => Return a w.

Definition raise {A} (e : PyExc) : Py A := fun w => Raise e w.

Definition bind {A B} (m : Py A) (k : A -> Py B) : Py B :=
  fun w =>
    match m w with
    | Return a w' => k a w'
    | Raise e w' => Raise e w'
    end.

(** [try: body / except Exception as e: handler]. *)
Definition try_except_Exception {A} (body : Py A) (handler : PyExc -> Py A) : Py A :=
  fun w =>
    match body w with
    | Return a w' => Return a w'
    | Raise e w' => if isinstance_Exception e then handler e w' else Raise e w'
    end.

(** A call to a collaborator: recorded, then run on the external state. *)
Definition external {A} (ev : Event) (f : Ext -> Outcome Ext A) : Py A :=
  fun w =>
    let calls := w_calls w ++ [ev] in
    match f (w_ext w) with
    | Return a x => Return a (mkWorld (w_session w) (w_logging w) x calls)
    | Raise e x => Raise e (mkWorld (w_session w) (w_logging w) x calls)
    end.

Definition gets {A} (f : World -> A) : Py A := fun w => Return (f w) w.

Definition modify_logging (f : Logging -> Logging) : Py unit :=
  fun w => Return tt (set_logging (f (w_logging w)) w).

End Embedding.

Notation "'let!' x ':=' m 'in' k" := (bind m (fun x => k))
  (at level 10, x name, m at level 100, k at level 200).
Notation "'do!' m 'in' k" := (bind m (fun _ => k))
  (at level 10, m at level 100, k at level 200).

Section Logger.
Context `{X : Externals}.

(** ** logging: loggers, handlers, records *)

(** [logging.getLogger(name)]: the logger of that name, created on first
    use with level NOTSET and no handler. *)
Definition getLogger (name : string) : Py LoggerRef :=
  fun w =>
    let L := w_logging w in
    match registry L !! name with
    | Some _ => Return name w
    | None =>
        Return name
          (set_logging
             (set_registry (<[name := mkLogger logging.NOTSET []]> (registry L)) L) w)
    end.

Definition setLevel (level : Z) (logger : LoggerRef) : Py unit :=
  modify_logging (fun L =>
    set_registry
      (alter (fun lg => mkLogger level (lg_handlers lg)) logger (registry L)) L).

Definition handlers (logger : LoggerRef) : Py (list Handler) :=
  gets (fun w => logger_handlers logger (w_logging w)).

Definition addHandler (h : Handler) (logger : LoggerRef) : Py unit :=
  modify_logging (fun L =>
    set_registry
      (alter (fun lg => mkLogger (lg_level lg) (lg_handlers lg ++ [h])) logger
         (registry L)) L).

(** [handlers.RotatingFileHandler(filename, maxBytes, backupCount)] opens the
    file for appending, which creates it when it is not there. *)
Definition RotatingFileHandler (filename : string) (maxBytes backupCount : Z)
  : Py Handler :=
  do! modify_logging (fun L =>
        set_files (<[filename := default [] (files L !! filename)]> (files L)) L) in
  ret (mkHandler filename maxBytes backupCount).

(** [os.makedirs(path)]: fails on a directory that exists. *)
Definition makedirs (path : string) : Py unit :=
  fun w =>
    if decide (path ∈ dirs (w_logging w))
    then Raise (mkExc (ExceptionSub "FileExistsError") path) w
    else Return tt (set_logging (set_dirs ({[path]} ∪ dirs (w_logging w)) (w_logging w)) w).

(** Modelled from the spec: [main.file_processor.is_file_exist] is imported
    by logger.py and defined in another file of the repository; the
    specification describes it as a file existence check that lets the log
    directory be created as needed. *)
Definition is_file_exist (path : string) : Py bool :=
  gets (fun w => bool_decide (path ∈ dirs (w_logging w))).

(** A handler appends the formatted record to its file. *)
Definition emit (line : LogLine) (fs : gmap string (list LogLine)) (h : Handler)
  : gmap string (list LogLine) :=
  <[h_filename h := default [] (fs !! h_filename h) ++ [line]]> fs.

(** A logger whose own level is NOTSET takes the level of the root logger,
    WARNING unless configured otherwise. *)
Definition getEffectiveLevel (lg : Logger) : Z :=
  if lg_level lg =? logging.NOTSET then 30 else lg_level lg.

(** [logger.log(levelno, msg)]: dropped when the logger is not enabled for
    [levelno], else handed to every handler of the logger. *)
Definition logger_log (levelno : Z) (logger : LoggerRef) (msg : string) : Py unit :=
  fun w =>
    let L := w_logging w in
    match registry L !! logger with
    | None => Return tt w
    | Some lg =>
        if getEffectiveLevel lg <=? levelno then
          let line := mkLine (asctime (w_ext w)) logger levelno msg in
          Return tt (set_logging (set_files (foldl (emit line) (files L) (lg_handlers lg)) L) w)
        else Return tt w
    end.

Definition logger_info : LoggerRef -> string -> Py unit := logger_log logging.INFO.
Definition logger_error : LoggerRef -> string -> Py unit := logger_log logging.ERROR.

(** ** load_base_loggers_config *)

(** Truth value of what [get_level] returns: [None] and [0] are false. *)
Definition truthy_level (level : option Z) : bool :=
  match level with
  | None => false
  | Some z => negb (z =? 0)
  end.

Definition load_base_loggers_config (func : PyFunc) : Py (option LoggerRef) :=
  let! logger := getLogger (f_name func) in
  let! name := gets (fun w => logging_level (w_session w)) in
  let level := get_level logger name in
  if negb (truthy_level level) then ret None
  else
    do! setLevel (default 0 level) logger in
    let! hs := handlers logger in
    do! (if negb (0 <? Z.of_nat (length hs)) then
           let! date := gets (fun w => today (w_ext w)) in
           let! there := is_file_exist ("logs/" +:+ date +:+ "/") in
           do! (if negb there then makedirs ("logs/" +:+ date +:+ "/") else ret tt) in
           let! sid := gets (fun w => session_id (w_session w)) in
           let! file_handler :=
             RotatingFileHandler ("logs/" +:+ date +:+ "/" +:+ sid +:+ ".log")
               (50 * 1024 * 1024) 10 in
           addHandler file_handler logger
         else ret tt) in
    ret (Some logger).

(** ** The decorators *)

(** A call of the wrapped function with positional and keyword arguments. *)
Definition call (func : PyFunc) (args : list PyVal) (kwargs : Kwargs) : Py PyVal :=
  external (CallFunc (f_name func) args kwargs) (f_call func args kwargs).

Definition datetime_now : Py Z := gets (fun w => now (w_ext w)).

Definition log_message (func : PyFunc) (args : list PyVal) (kwargs : Kwargs)
    (date : Z) (func_result : PyVal) : string :=
  "function: " +:+ f_module func +:+ "." +:+ f_name func +:+ ", arguments:"
  +:+ f_name func +:+ "(" +:+ str_args args +:+ "," +:+ str_kwargs kwargs +:+ ") "
  +:+ "            " +:+ nl +:+ "total execution date: " +:+ str_timedelta date
  +:+ "            " +:+ nl +:+ "functions_result: " +:+ str_val func_result +:+ nl.

Definition log (func : PyFunc) (args : list PyVal) (kwargs : Kwargs) : Py PyVal :=
  let! logger := load_base_loggers_config func in
  match logger with
  | None => call func args kwargs
  | Some logger =>
      let! start := datetime_now in
      let! func_result :=
        try_except_Exception (call func args kwargs)
          (fun e => do! logger_error logger (format_exc e) in raise e) in
      let! finish := datetime_now in
      do! logger_info logger (log_message func args kwargs (finish - start) func_result) in
      ret func_result
  end.

End Logger.

Section Training.
Context `{X : Externals}.

(** [t[i]] on a tuple, negative indices counted from the end. *)
Definition getitem (t : list PyVal) (i : Z) : Py PyVal :=
  let n := Z.of_nat (length t) in
  let j := if i <? 0 then i + n else i in
  match (if ((0 <=? j) && (j <? n))%bool then t !! Z.to_nat j else None) with
  | Some v => ret v
  | None => raise (IndexError "tuple index out of range")
  end.

(** [Series.unique()]: the distinct values in order of first appearance. *)
Fixpoint unique (xs : list Scalar) : list Scalar :=
  match xs with
  | [] => []
  | x :: r => x :: filter (fun y => y <> x) (unique r)
  end.

(** [range(n)]. *)
Definition range (n : nat) : list nat := seq 0 n.

(** [str(x)] on a non-negative [int]. *)
Definition str_nat (x : nat) : string := pretty x.

(** [v + s] for a [str] literal [s]: concatenation on a [str], a
    [TypeError] on the other values (a Series added to a string never yields
    a path that [open] accepts). *)
Definition add_str (v : PyVal) (s : string) : Py string :=
  match v with
  | VStr p => ret (p +:+ s)
  | _ => raise (TypeError "unsupported operand for +")
  end.

Definition __get_prediction (description field_values model_path : PyVal)
  : Py (list Scalar) :=
  let! path := add_str model_path ".sav" in
  let! estimator := external (PickleLoad path) (pickle_load path) in
  let! prediction :=
    external (CrossValPredict description field_values 10 4)
      (cross_val_predict estimator description field_values 10 4) in
  ret prediction.

(** The order of [str]: lexicographic. *)
Definition str_le (s1 s2 : string) : Prop := String.leb s1 s2 = true.

Global Instance str_le_dec : RelDecision str_le.
Proof. intros s1 s2. unfold str_le. apply _. Defined.

Definition as_ints (xs : list Scalar) : option (list Z) :=
  mapM (fun x => match x with SInt z => Some z | SStr _ => None end) xs.

Definition as_strs (xs : list Scalar) : option (list string) :=
  mapM (fun x => match x with SStr s => Some s | SInt _ => None end) xs.

(** [sorted(xs)]: integers by value, text lexicographically; comparing an
    integer with text is a [TypeError]. *)
Definition sorted (xs : list Scalar) : Py (list Scalar) :=
  match as_ints xs with
  | Some zs => ret (SInt <$> merge_sort Z.le zs)
  | None =>
      match as_strs xs with
      | Some ss => ret (SStr <$> merge_sort str_le ss)
      | None => raise (TypeError "'<' not supported between instances of 'str' and 'int'")
      end
  end.

(** [session['predictions_parameters.ini']['predictions_parameters'][key]]. *)
Definition session_classes (key : string) : Py (list string) :=
  fun w =>
    match predictions_parameters (w_session w) !! key with
    | Some names => Return names w
    | None => Raise (KeyError key) w
    end.

(** The test of line 169: [not set(target_names).difference(set(['0', '1']))]. *)
Definition names_within_01 (target_names : list string) : bool :=
  bool_decide ((list_to_set target_names : gset string) ∖ list_to_set ["0"; "1"] = ∅).

(** The area name of the multi-class report. *)
Definition areas_name_of (name : string) : string :=
  if contains "priority" (lower name) then "priority"
  else if contains "ttr" (lower name) then "ttr"
  else "".

Definition report_text (time : Z) (areas_name reports : string) : string :=
  nl +:+ "total execution time: " +:+ str_timedelta time +:+ " " +:+ nl
  +:+ "areas_name: " +:+ areas_name +:+ " " +:+ nl +:+ reports.

(** Lines 170-185: the report of the binary branch. *)
Definition binary_report (name : string) (values prediction : list Scalar)
    (target_names : list string) (start : Z) : Py string :=
  let! time := datetime_now in
  let! cr :=
    external (ClassificationReport values prediction target_names)
      (classification_report values prediction target_names) in
  let! acc :=
    external (AccuracyScore values prediction) (accuracy_score values prediction) in
  let! auc :=
    external (RocAucScore values prediction) (roc_auc_score values prediction) in
  let! mcc :=
    external (MatthewsCorrcoef values prediction) (matthews_corrcoef values prediction) in
  ret (report_text (time - start) name
         (cr +:+ nl +:+ "accuracy_score " +:+ str_score acc +:+ nl
          +:+ "roc_auc_score " +:+ str_score auc +:+ nl
          +:+ "matthews_corrcoef " +:+ str_score mcc +:+ nl)).

(** Lines 187-200: the report of the multi-class branch. *)
Definition multiclass_report (name : string) (values prediction : list Scalar)
    (start : Z) : Py string :=
  let areas_name := areas_name_of name in
  let! time := datetime_now in
  let! y_true := sorted values in
  let! classes := session_classes (areas_name +:+ "_classes") in
  let! cr :=
    external (ClassificationReport y_true prediction classes)
      (classification_report y_true prediction classes) in
  ret (report_text (time - start) areas_name cr).

(** Lines 159-201: the body of the decorator once the logger is there and
    the arguments have been taken apart; [areas] is the Series [name],
    [values]. *)
Definition train_and_report (func : PyFunc) (logger : LoggerRef) (args : list PyVal)
    (descr model_path : PyVal) (name : string) (values : list Scalar) : Py PyVal :=
  let target_names := str_nat <$> range (length (unique values)) in
  let! start := datetime_now in
  do! try_except_Exception (call func args [])
        (fun e => do! logger_error logger (format_exc e) in raise e) in
  let! prediction := __get_prediction descr (VSeries name values) model_path in
  let! result :=
    (if names_within_01 target_names
     then binary_report name values prediction target_names start
     else multiclass_report name values prediction start) in
  do! logger_info logger result in
  ret VNone.

Definition log_train (func : PyFunc) (args : list PyVal) (kwargs : Kwargs) : Py PyVal :=
  let! logger := load_base_loggers_config func in
  match logger with
  | None =>
      do! call func args [] in
      ret VNone
  | Some logger =>
      let! descr := getitem args 0 in
      let! areas := getitem args 1 in
      let! model_path := getitem args (Z.of_nat (length args) - 1) in
      match areas with
      | VSeries name values =>
          train_and_report func logger args descr model_path name values
      | _ => raise (AttributeError "object has no attribute 'unique'")
      end
  end.

End Training.

(** ** Notions used by the statements *)


(** [new] is what the log files of [L'] hold beyond those of [L]: the
    lines [new] at the end of [file], nothing anywhere else. *)
Definition appended (L L' : Logging) (file : string) (new : list LogLine) : Prop :=
  forall path,
    lines_of L' path = lines_of L path ++ if bool_decide (path = file) then new else [].

(** [needle] occurs in [hay]. *)
Definition is_substring (needle hay : string) : Prop :=
  exists pre post, hay = pre +:+ needle +:+ post.

Section Notions.
Context `{X : Externals}.

(** The file a session is logged to: the name given to the handler that
    [load_base_loggers_config] installs. *)
Definition session_log (w : World) : string :=
  "logs/" +:+ today (w_ext w) +:+ "/" +:+ session_id (w_session w) +:+ ".log".

(** The file behind the logger of [func]: that of the handler the logger
    already has, else the session's. *)
Definition sink (func : PyFunc) (w : World) : string :=
  match logger_handlers (f_name func) (w_logging w) with
  | h :: _ => h_filename h
  | [] => session_log w
  end.

(** The world once a collaborator call [ev] has returned or raised, leaving
    the external state [x]. *)
Definition after_call (ev : Event) (x : Ext) (w : World) : World :=
  mkWorld (w_session w) (w_logging w) x (w_calls w ++ [ev]).

(** [m] relates every world it starts in to the world it leaves, whether it
    returns or raises. *)
Definition preserves {A} (I : World -> World -> Prop) (m : Py A) : Prop :=
  forall w, I w (state_of (m w)).

(** Whatever [m] returns satisfies [P]. *)
Definition returns_only {A} (P : A -> Prop) (m : Py A) : Prop :=
  forall w v w', m w = Return v w' -> P v.

(** The calls made between [w] and [w'] all satisfy [P]. *)
Definition calls_extend (P : Event -> Prop) (w w' : World) : Prop :=
  exists evs, w_calls w' = w_calls w ++ evs /\ Forall P evs.

(** No logger with at most one handler in [w] has more in [w']. *)
Definition at_most_one_handler (w w' : World) : Prop :=
  forall name,
    (length (logger_handlers name (w_logging w)) <= 1)%nat ->
    (length (logger_handlers name (w_logging w')) <= 1)%nat.

(** A call of [func] that passes [args] positionally and no keyword. *)
Definition positional_only (func : PyFunc) (args : list PyVal) (ev : Event) : Prop :=
  match ev with
  | CallFunc name a k => name = f_name func /\ a = args /\ k = []
  | _ => True
  end.

(** Every logger that has handlers in [w] has the same ones in [w']. *)
Definition handlers_kept (w w' : World) : Prop :=
  forall name,
    logger_handlers name (w_logging w) <> [] ->
    logger_handlers name (w_logging w') = logger_handlers name (w_logging w).

(** The logging state of [w'] is that of [w]. *)
Definition logging_same (w w' : World) : Prop := w_logging w' = w_logging w.

End Notions.

(** The area name as the specification words it: a substring match on the
    series name itself. *)
Definition areas_name_spec (name : string) : string :=
  if contains "priority" name then "priority"
  else if contains "ttr" name then "ttr"
  else "".

(** ** A concrete set of collaborators

    Used to run the decorators on examples: the external state is the clock,
    every collaborator call takes one tick, cross-validation predicts the
    labels it is given, and the metrics are constants. *)
Module Demo.

Definition tick {A} (a : A) (x : Z) : Outcome Z A := Return a (x + 1).

Definition demo_cross_val_predict (m : unit) (descr areas : PyVal) (cv n_jobs : Z)
    (x : Z) : Outcome Z (list Scalar) :=
  match areas with
  | VSeries _ values => tick values x
  | _ => Raise (TypeError "y is not array-like") x
  end.

Definition demo_pickle_load (path : string) (x : Z) : Outcome Z unit :=
  if String.eqb path "missing.sav"
  then Raise (mkExc (ExceptionSub "FileNotFoundError") path) x
  else tick tt x.

#[export] Instance externals : Externals :=
  {| Ext := Z;
     Model := unit;
     Score := Z;
     now := fun x => x;
     today := fun _ => "2019-05-01";
     asctime := fun x => pretty x;
     str_timedelta := fun d => pretty d;
     str_score := fun s => pretty s;
     str_val := fun v =>
       match v with
       | VNone => "None"
       | VInt z => pretty z
       | VStr s => s
       | VSeries name _ => name
       end;
     str_args := fun args => pretty (length args);
     str_kwargs := fun kwargs => pretty (length kwargs);
     format_exc := fun e => "Traceback (most recent call last): " +:+ exc_msg e;
     pickle_load := demo_pickle_load;
     cross_val_predict := demo_cross_val_predict;
     classification_report := fun _ _ names => tick ("report/" +:+ pretty (length names));
     accuracy_score := fun _ _ => tick 1;
     roc_auc_score := fun _ _ => tick 1;
     matthews_corrcoef := fun _ _ => tick 1 |}.

Definition session0 (level : string) : Session :=
  {| logging_level := level;
     session_id := "s1";
     predictions_parameters :=
       {[ "priority_classes" := ["Low"; "Medium"; "High"];
          "ttr_classes" := ["1-30 days"; "31-90 days"; ">90 days"] ]} |}.

Definition logging0 : Logging :=
  {| registry := ∅; dirs := ∅; files := ∅ |}.

Definition world0 (level : string) : World :=
  {| w_session := session0 level; w_logging := logging0; w_ext := 0; w_calls := [] |}.

(** Wrapped functions: one that returns a number whatever it is given, the
    same with the keyword arguments counted, one that takes no keyword, and
    ones that raise. *)
Definition train : PyFunc :=
  {| f_module := "main.training"; f_name := "train";
     f_call := fun _ _ => tick (VInt 7) |}.

Definition count_kwargs : PyFunc :=
  {| f_module := "main.training"; f_name := "count_kwargs";
     f_call := fun _ kwargs => tick (VInt (Z.of_nat (length kwargs))) |}.

Definition no_keywords : PyFunc :=
  {| f_module := "main.training"; f_name := "no_keywords";
     f_call := fun _ kwargs x =>
       match kwargs with
       | [] => Return (VInt 7) (x + 1)
       | _ => Raise (TypeError "got an unexpected keyword argument") x
       end |}.

Definition value_error : PyExc := mkExc (ExceptionSub "ValueError") "bad input".

Definition failing : PyFunc :=
  {| f_module := "main.training"; f_name := "failing";
     f_call := fun _ _ x => Raise value_error (x + 1) |}.

Definition interrupted : PyFunc :=
  {| f_module := "main.training"; f_name := "interrupted";
     f_call := fun _ _ x => Raise (mkExc KeyboardInterrupt "") (x + 1) |}.

(** Twenty or thirty issue descriptions, and two area series long enough
    for ten folds: twenty labels alternating 3 and 7, thirty priorities
    3, 1, 2 in turn. *)
Definition descriptions (n : nat) : PyVal :=
  VSeries "Description" ((fun i : nat => SStr ("issue " +:+ pretty i)) <$> seq 0 n).

Definition labels_3_7 : list Scalar := concat (replicate 10 [SInt 3; SInt 7]).
Definition priorities : list Scalar := concat (replicate 10 [SInt 3; SInt 1; SInt 2]).

Definition args_3_7 : list PyVal :=
  [descriptions 20; VSeries "Resolution" labels_3_7; VStr "model"].
Definition args_Priority : list PyVal :=
  [descriptions 30; VSeries "Priority" priorities; VStr "model"].
Definition args_priority : list PyVal :=
  [descriptions 30; VSeries "priority_codes" priorities; VStr "model"].

Definition some_kwargs : Kwargs := [("verbose", VInt 1)].

(** A later session: another identifier and the level "ERROR", in the
    logging state that a first bootstrap for [train] at level "INFO" left. *)
Definition later_session_world : World :=
  {| w_session :=
       {| logging_level := "ERROR"; session_id := "s2";
          predictions_parameters := predictions_parameters (session0 "ERROR") |};
     w_logging := w_logging (state_of (load_base_loggers_config train (world0 "INFO")));
     w_ext := 100;
     w_calls := [] |}.

(** Calls that leave the success path: one or two positional arguments, a
    number where the area series should be, a model that is not on disk,
    labels of both kinds. *)
Definition args_one : list PyVal := [descriptions 20].
Definition args_two : list PyVal := [descriptions 20; VSeries "Resolution" labels_3_7].
Definition args_no_series : list PyVal := [descriptions 20; VInt 3; VStr "model"].
Definition args_missing_model : list PyVal :=
  [descriptions 20; VSeries "Resolution" labels_3_7; VStr "missing"].
Definition mixed_labels : list Scalar :=
  concat (replicate 10 [SInt 3; SStr "high"; SInt 2]).
Definition args_mixed : list PyVal :=
  [descriptions 30; VSeries "priority" mixed_labels; VStr "model"].

End Demo.

(** * Properties *)

(** ** The level resolver *)

Lemma get_level_cases (logger : LoggerRef) (level : string) :
  get_level logger level = Some logging.INFO /\ level = "INFO"
  \/ get_level logger level = Some logging.ERROR /\ level = "ERROR"
  \/ get_level logger level = None /\ level <> "INFO" /\ level <> "ERROR".
Proof.
  unfold get_level.
  destruct (String.eqb_spec level "INFO") as [-> | Hi]; [by left |].
  destruct (String.eqb_spec level "ERROR") as [-> | He]; [by right; left |].
  right; right. by destruct (logging.module_eq_str _).
Qed.

Lemma get_level_Some (logger : LoggerRef) (level : string) (lv : Z) :
  get_level logger level = Some lv ->
  (level = "INFO" /\ lv = logging.INFO) \/ (level = "ERROR" /\ lv = logging.ERROR).
Proof.
  intros H. destruct (get_level_cases logger level) as [[E ->] | [[E ->] | [E _]]];
    rewrite E in H; [left | right | discriminate]; by inversion H.
Qed.

(** C8. The resolver sends "INFO" to the info severity and "ERROR" to the
    error severity, both different from [None]; every other string, the
    "DO NOT LOG" sentinel among them, is sent to [None]. The resolver is a
    total function: no input makes it fail. *)
Theorem get_level_resolves (logger : LoggerRef) :
  get_level logger "INFO" = Some logging.INFO
  /\ get_level logger "ERROR" = Some logging.ERROR
  /\ get_level logger "DO NOT LOG" = None
  /\ forall level : string,
       level <> "INFO" -> level <> "ERROR" -> get_level logger level = None.
Proof.
  repeat split; try reflexivity.
  intros level Hi He.
  destruct (get_level_cases logger level) as [[_ E] | [[_ E] | [E _]]]; [done | done | exact E].
Qed.

(** [get_level_resolves] on the level name "DEBUG". *)
Lemma get_level_resolves_witness :
  "DEBUG" <> "INFO" /\ "DEBUG" <> "ERROR" /\ get_level "train" "DEBUG" = None.
Proof.
  split; [discriminate |]. split; [discriminate |].
  apply (get_level_resolves "train"); discriminate.
Defined.

(** ** Distinct labels and the branch test *)

Lemma elem_of_unique (x : Scalar) (xs : list Scalar) : x ∈ unique xs <-> x ∈ xs.
Proof.
  induction xs as [| y r IH]; simpl; [done |].
  rewrite !elem_of_cons, list_elem_of_filter, IH.
  destruct (decide (x = y)); tauto.
Qed.

Lemma NoDup_unique (xs : list Scalar) : NoDup (unique xs).
Proof.
  induction xs as [| y r IH]; simpl; [constructor |].
  constructor.
  - rewrite list_elem_of_filter. tauto.
  - by apply NoDup_filter.
Qed.

(** The test of line 169 looks at the positional names only: it holds
    exactly when there are at most two of them. *)
Lemma names_within_01_range (n : nat) :
  names_within_01 (str_nat <$> range n) = true <-> (n <= 2)%nat.
Proof.
  unfold names_within_01. rewrite bool_decide_eq_true. split.
  - intros Hempty. destruct (decide (n <= 2)%nat) as [| Hgt]; [done | exfalso].
    assert (H2 : "2" ∈ (list_to_set (str_nat <$> range n) : gset string)
                  ∖ list_to_set ["0"; "1"]).
    { apply elem_of_difference. split.
      - apply elem_of_list_to_set, list_elem_of_fmap. exists 2%nat. split; [done |].
        apply elem_of_seq. lia.
      - rewrite elem_of_list_to_set, !elem_of_cons, elem_of_nil.
        intros [? | [? | []]]; discriminate. }
    rewrite Hempty in H2. by apply not_elem_of_empty in H2.
  - intros Hle.
    assert (Hn : n = 0%nat \/ n = 1%nat \/ n = 2%nat) by lia.
    destruct Hn as [-> | [-> | ->]]; simpl; set_solver.
Qed.

(** ** Substring search *)

Lemma append_cons (a : ascii) (s t : string) : String a s +:+ t = String a (s +:+ t).
Proof. reflexivity. Qed.

Lemma append_nil (t : string) : "" +:+ t = t.
Proof. reflexivity. Qed.

Lemma prefix_true_iff (needle hay : string) :
  String.prefix needle hay = true <-> exists post, hay = needle +:+ post.
Proof.
  revert hay. induction needle as [| a needle IH]; intros hay.
  - split; [intros _; exists hay; reflexivity | intros _; by destruct hay].
  - destruct hay as [| b hay]; simpl.
    + split; [done | intros [post Hpost]; rewrite append_cons in Hpost; discriminate].
    + destruct (ascii_dec a b) as [-> | Hab].
      * rewrite IH. split; intros [post Hpost]; exists post.
        -- by rewrite append_cons, Hpost.
        -- rewrite append_cons in Hpost. by inversion Hpost.
      * split; [done | intros [post Hpost]; rewrite append_cons in Hpost; congruence].
Qed.

(** [contains] decides the substring relation. *)
Lemma contains_true_iff (needle hay : string) :
  contains needle hay = true <-> exists pre post, hay = pre +:+ needle +:+ post.
Proof.
  induction hay as [| c hay IH].
  - cbn [contains]. destruct (String.prefix needle "") eqn:Hp.
    + apply prefix_true_iff in Hp as [post Hpost]. split; [intros _ | done].
      by exists "", post.
    + split; [done | intros (pre & post & Heq)].
      destruct pre; [| rewrite append_cons in Heq; discriminate].
      rewrite append_nil in Heq.
      assert (String.prefix needle "" = true) as Hp'
        by (apply prefix_true_iff; by exists post).
      congruence.
  - cbn [contains]. destruct (String.prefix needle (String c hay)) eqn:Hp.
    + apply prefix_true_iff in Hp as [post Hpost]. split; [intros _ | done].
      by exists "", post.
    + rewrite IH. split.
      * intros (pre & post & ->). by exists (String c pre), post.
      * intros (pre & post & Heq). destruct pre as [| c' pre].
        -- rewrite append_nil in Heq.
           assert (String.prefix needle (String c hay) = true) as Hp'
             by (apply prefix_true_iff; by exists post).
           congruence.
        -- rewrite append_cons in Heq. inversion Heq; subst. by exists pre, post.
Qed.

(** ** Sorting the true labels *)

Global Instance str_le_total : Total str_le.
Proof. intros s1 s2. apply String.leb_total. Qed.



Section SortedLabels.
Context `{X : Externals}.


(** What [sorted] returns does not depend on the world. *)
Lemma sorted_any_world (xs ys : list Scalar) (w w' : World) :
  sorted xs w = Return ys w -> sorted xs w' = Return ys w'.
Proof.
  unfold sorted. destruct (as_ints xs); [by inversion 1 |].
  destruct (as_strs xs); [by inversion 1 | discriminate].
Qed.

(** On labels of one kind [sorted] returns. *)
Lemma sorted_total (xs : list Scalar) (w : World) :
  is_Some (as_ints xs) \/ is_Some (as_strs xs) ->
  exists ys, sorted xs w = Return ys w.
Proof.
  unfold sorted. intros [[zs ->] | [ss Hs]]; [by eexists |].
  rewrite Hs. destruct (as_ints xs); by eexists.
Qed.

End SortedLabels.

(** ** The logger bootstrap *)

Section Bootstrap.
Context `{X : Externals}.

Lemma load_base_loggers_config_disabled (func : PyFunc) (w : World) :
  get_level (f_name func) (logging_level (w_session w)) = None ->
  exists L',
    load_base_loggers_config func w = Return None (set_logging L' w)
    /\ dirs L' = dirs (w_logging w)
    /\ files L' = files (w_logging w)
    /\ forall name, logger_handlers name L' = logger_handlers name (w_logging w).
Proof.
  intros Hlv. unfold load_base_loggers_config, bind, getLogger, gets.
  destruct w as [s L x c]. simpl in *.
  destruct (registry L !! f_name func) as [lg |] eqn:Hreg; simpl; rewrite Hlv; simpl.
  - exists L. by destruct L.
  - eexists. split; [reflexivity |]. repeat split.
    intros name. unfold logger_handlers. simpl.
    destruct (decide (name = f_name func)) as [-> | Hne].
    + by rewrite lookup_insert_eq, Hreg.
    + by rewrite lookup_insert_ne.
Qed.

Lemma lines_of_touch (fs : gmap string (list LogLine)) (p path : string) :
  default [] (<[p := default [] (fs !! p)]> fs !! path) = default [] (fs !! path).
Proof.
  destruct (decide (p = path)) as [-> | Hne].
  - by rewrite lookup_insert_eq.
  - by rewrite lookup_insert_ne.
Qed.

Lemma load_base_loggers_config_enabled (func : PyFunc) (w : World) (lv : Z) :
  get_level (f_name func) (logging_level (w_session w)) = Some lv ->
  exists L',
    load_base_loggers_config func w = Return (Some (f_name func)) (set_logging L' w)
    /\ (forall path, lines_of L' path = lines_of (w_logging w) path)
    /\ registry L' !! f_name func =
         Some (mkLogger lv
                 match logger_handlers (f_name func) (w_logging w) with
                 | [] => [mkHandler (session_log w) (50 * 1024 * 1024) 10]
                 | hs => hs
                 end)
    /\ (forall name, name <> f_name func ->
        registry L' !! name = registry (w_logging w) !! name).
Proof.
  intros Hlv. unfold load_base_loggers_config, bind, getLogger, gets.
  destruct w as [s L x c]. simpl in *.
  assert (Hlv' : lv = logging.INFO \/ lv = logging.ERROR)
    by (destruct (get_level_Some _ _ _ Hlv) as [[_ ->] | [_ ->]]; auto).
  unfold session_log, logger_handlers. simpl.
  set (d := "logs/" +:+ today x +:+ "/").
  assert (Hother : forall (r : gmap string Logger) f g name,
             name <> f_name func ->
             alter f (f_name func) (alter g (f_name func) r) !! name = r !! name)
    by (intros r f g name Hne; by rewrite !lookup_alter_ne).
  destruct (registry L !! f_name func) as [lg |] eqn:Hreg; simpl; rewrite Hlv;
    (replace (negb (truthy_level (Some lv))) with false by (by destruct Hlv' as [-> | ->]));
    unfold logger_handlers; simpl.
  - rewrite lookup_alter_eq, Hreg. simpl.
    destruct (lg_handlers lg) as [| h hs] eqn:Hhs; simpl.
    + unfold makedirs. simpl.
      destruct (decide (d ∈ dirs L)) as [Hin | Hout];
        [rewrite (bool_decide_eq_true_2 _ Hin)
        | rewrite (bool_decide_eq_false_2 _ Hout); simpl;
          destruct (decide _) as [? | _]; [contradiction |]];
        simpl; (eexists; split; [reflexivity |]);
        (split; [intros path; apply lines_of_touch |]);
        (split; [simpl; by rewrite !lookup_alter_eq, Hreg; simpl; rewrite Hhs |]);
        intros name Hne; simpl; by apply Hother.
    + eexists; split; [reflexivity |]; split; [done |]. split.
      * simpl. by rewrite lookup_alter_eq, Hreg; simpl; rewrite Hhs.
      * intros name Hne. simpl. by rewrite lookup_alter_ne.
  - rewrite lookup_alter_eq, lookup_insert_eq. simpl.
    unfold makedirs. simpl.
    destruct (decide (d ∈ dirs L)) as [Hin | Hout];
      [rewrite (bool_decide_eq_true_2 _ Hin)
      | rewrite (bool_decide_eq_false_2 _ Hout); simpl;
        destruct (decide _) as [? | _]; [contradiction |]];
      simpl; (eexists; split; [reflexivity |]);
      (split; [intros path; apply lines_of_touch |]);
      (split; [simpl; by rewrite !lookup_alter_eq, lookup_insert_eq |]);
      intros name Hne; simpl; rewrite Hother by done; by rewrite lookup_insert_ne.
Qed.



End Bootstrap.

(** ** Records and tuple indexing *)

Section Records.
Context `{X : Externals}.

Lemma appended_nil (L L' : Logging) (file : string) :
  appended L L' file [] <-> forall path, lines_of L' path = lines_of L path.
Proof.
  unfold appended. split; intros H path; rewrite H.
  - destruct (bool_decide _); by rewrite app_nil_r.
  - destruct (bool_decide _); by rewrite app_nil_r.
Qed.

Lemma appended_after (L0 L L' : Logging) (file : string) (new : list LogLine) :
  (forall path, lines_of L path = lines_of L0 path) ->
  appended L L' file new -> appended L0 L' file new.
Proof. intros H0 H path. by rewrite H, H0. Qed.

(** A record handed to a logger with one handler lands in that handler's
    file when the logger's level lets it through, and nowhere else. *)
Lemma logger_log_single (levelno : Z) (logger : LoggerRef) (msg : string)
    (w : World) (lv : Z) (h : Handler) :
  registry (w_logging w) !! logger = Some (mkLogger lv [h]) ->
  lv = logging.INFO \/ lv = logging.ERROR ->
  exists L',
    logger_log levelno logger msg w = Return tt (set_logging L' w)
    /\ registry L' = registry (w_logging w)
    /\ appended (w_logging w) L' (h_filename h)
         (if lv <=? levelno
          then [mkLine (asctime (w_ext w)) logger levelno msg] else []).
Proof.
  intros Hreg Hlv. unfold logger_log. rewrite Hreg.
  assert (He : getEffectiveLevel (mkLogger lv [h]) = lv)
    by (destruct Hlv as [-> | ->]; reflexivity).
  rewrite He. destruct (lv <=? levelno).
  - eexists. split; [reflexivity |]. split; [done |].
    intros path. unfold lines_of, emit. simpl.
    destruct (decide (path = h_filename h)) as [-> | Hne].
    + rewrite lookup_insert_eq. simpl. by rewrite bool_decide_eq_true_2.
    + rewrite lookup_insert_ne by done.
      rewrite bool_decide_eq_false_2 by done. by rewrite app_nil_r.
  - exists (w_logging w). split; [by destruct w |]. split; [done |].
    by apply appended_nil.
Qed.

Lemma getitem_nat (t : list PyVal) (i : nat) (v : PyVal) (w : World) :
  t !! i = Some v -> getitem t (Z.of_nat i) w = Return v w.
Proof.
  intros Hi. unfold getitem.
  pose proof (lookup_lt_Some _ _ _ Hi) as Hlt.
  replace (Z.of_nat i <? 0) with false by (symmetry; apply Z.ltb_ge; lia).
  replace (0 <=? Z.of_nat i) with true by (symmetry; apply Z.leb_le; lia).
  replace (Z.of_nat i <? Z.of_nat (length t)) with true by (symmetry; apply Z.ltb_lt; lia).
  simpl. by rewrite Nat2Z.id, Hi.
Qed.

Lemma getitem_last (t : list PyVal) (v : PyVal) (w : World) :
  last t = Some v -> getitem t (Z.of_nat (length t) - 1) w = Return v w.
Proof.
  intros Hl. rewrite last_lookup in Hl.
  assert (length t <> 0%nat) by (destruct t; [discriminate | done]).
  replace (Z.of_nat (length t) - 1) with (Z.of_nat (Nat.pred (length t))) by lia.
  by apply getitem_nat.
Qed.

End Records.

(** ** The call logger *)

Section CallLogger.
Context `{X : Externals}.

(** With at most one handler on entry, the bootstrap leaves the logger with
    exactly one, writing to [sink]. *)
Lemma single_handler (func : PyFunc) (w : World) :
  (length (logger_handlers (f_name func) (w_logging w)) <= 1)%nat ->
  exists h,
    match logger_handlers (f_name func) (w_logging w) with
    | [] => [mkHandler (session_log w) (50 * 1024 * 1024) 10]
    | hs => hs
    end = [h]
    /\ h_filename h = sink func w.
Proof.
  unfold sink. destruct (logger_handlers _ _) as [| h [| h' hs]]; simpl; intros Hlen.
  - by eexists.
  - by exists h.
  - lia.
Qed.

(** What an enabled bootstrap leaves behind, for a logger with at most one
    handler on entry. *)
Lemma bootstrap_ready (func : PyFunc) (w : World) (lv : Z) :
  get_level (f_name func) (logging_level (w_session w)) = Some lv ->
  (length (logger_handlers (f_name func) (w_logging w)) <= 1)%nat ->
  exists L' h,
    load_base_loggers_config func w = Return (Some (f_name func)) (set_logging L' w)
    /\ (forall path, lines_of L' path = lines_of (w_logging w) path)
    /\ registry L' !! f_name func = Some (mkLogger lv [h])
    /\ h_filename h = sink func w
    /\ (lv = logging.INFO \/ lv = logging.ERROR).
Proof.
  intros Hlv Hlen.
  destruct (load_base_loggers_config_enabled func w lv Hlv) as (L' & Hcfg & Hlines & Hreg & _).
  destruct (single_handler func w Hlen) as (h & Hh & Hsink). rewrite Hh in Hreg.
  exists L', h. repeat split; try done.
  destruct (get_level_Some _ _ _ Hlv) as [[_ ->] | [_ ->]]; auto.
Qed.

(** C4, as the code has it. When the wrapped function returns, [log]
    returns the same value after that one call. With logging disabled
    nothing is written and neither directory nor file is created. With the
    level "INFO" one info line, carrying the call and its result, is appended
    to the logger's file. With the level "ERROR" logging is enabled but the
    logger drops the info record: no line is written. *)
Theorem log_returns_result (func : PyFunc) (args : list PyVal) (kwargs : Kwargs)
    (w : World) (v : PyVal) (x' : Ext) :
  f_call func args kwargs (w_ext w) = Return v x' ->
  (length (logger_handlers (f_name func) (w_logging w)) <= 1)%nat ->
  exists w',
    log func args kwargs w = Return v w'
    /\ w_ext w' = x'
    /\ w_calls w' = w_calls w ++ [CallFunc (f_name func) args kwargs]
    /\ (get_level (f_name func) (logging_level (w_session w)) = None ->
        dirs (w_logging w') = dirs (w_logging w)
        /\ files (w_logging w') = files (w_logging w))
    /\ appended (w_logging w) (w_logging w') (sink func w)
         (if bool_decide (logging_level (w_session w) = "INFO")
          then [mkLine (asctime x') (f_name func) logging.INFO
                  (log_message func args kwargs (now x' - now (w_ext w)) v)]
          else []).
Proof.
  intros Hcall Hlen.
  destruct (get_level (f_name func) (logging_level (w_session w))) as [lv |] eqn:Hlv.
  - destruct (bootstrap_ready func w lv Hlv Hlen) as (L' & h & Hcfg & Hlines & Hreg & Hsink & Hlv').
    unfold log, bind. rewrite Hcfg.
    unfold datetime_now, gets, try_except_Exception, call, external. simpl.
    rewrite Hcall. simpl.
    set (w2 := mkWorld (w_session w) L' x'
                 (w_calls w ++ [CallFunc (f_name func) args kwargs])).
    destruct (logger_log_single logging.INFO (f_name func)
                (log_message func args kwargs (now x' - now (w_ext w)) v)
                w2 lv h Hreg Hlv') as (L2 & Hlog & _ & Hlines2).
    unfold logger_info. rewrite Hlog. eexists. split; [reflexivity |].
    simpl. repeat split; [discriminate | discriminate |].
    apply (appended_after _ L'); [done |]. rewrite <- Hsink.
    replace (bool_decide (logging_level (w_session w) = "INFO"))
      with (lv <=? logging.INFO); [done |].
    destruct (get_level_Some _ _ _ Hlv) as [[-> ->] | [-> ->]]; reflexivity.
  - destruct (load_base_loggers_config_disabled func w Hlv) as (L' & Hcfg & Hdirs & Hfiles & _).
    unfold log, bind. rewrite Hcfg. unfold call, external. simpl. rewrite Hcall.
    eexists. split; [reflexivity |]. simpl. repeat split; [done | done |].
    rewrite bool_decide_eq_false_2
      by (intros Hinfo; rewrite Hinfo in Hlv; discriminate).
    apply appended_nil. intros path. unfold lines_of. by rewrite Hfiles.
Qed.

(** A raise inside [log]: the exception leaves [log] as it left
    the wrapped function; one error line with the trace is appended to the
    logger's file when the exception is an [Exception], none when it is not. *)
Lemma log_reraises (func : PyFunc) (args : list PyVal) (kwargs : Kwargs)
    (w : World) (lv : Z) (e : PyExc) (x' : Ext) :
  get_level (f_name func) (logging_level (w_session w)) = Some lv ->
  (length (logger_handlers (f_name func) (w_logging w)) <= 1)%nat ->
  f_call func args kwargs (w_ext w) = Raise e x' ->
  exists w',
    log func args kwargs w = Raise e w'
    /\ w_calls w' = w_calls w ++ [CallFunc (f_name func) args kwargs]
    /\ appended (w_logging w) (w_logging w') (sink func w)
         (if isinstance_Exception e
          then [mkLine (asctime x') (f_name func) logging.ERROR (format_exc e)]
          else []).
Proof.
  intros Hlv Hlen Hcall.
  destruct (bootstrap_ready func w lv Hlv Hlen) as (L' & h & Hcfg & Hlines & Hreg & Hsink & Hlv').
  unfold log, bind. rewrite Hcfg.
  unfold datetime_now, gets, try_except_Exception, call, external. simpl.
  rewrite Hcall. simpl.
  destruct (isinstance_Exception e).
  - set (w2 := mkWorld (w_session w) L' x'
                 (w_calls w ++ [CallFunc (f_name func) args kwargs])).
    destruct (logger_log_single logging.ERROR (f_name func) (format_exc e)
                w2 lv h Hreg Hlv') as (L2 & Hlog & _ & Hlines2).
    unfold logger_error. rewrite Hlog. eexists. split; [reflexivity |].
    simpl. split; [done |].
    apply (appended_after _ L'); [done |]. rewrite <- Hsink.
    replace (lv <=? logging.ERROR) with true in Hlines2; [done |].
    by destruct Hlv' as [-> | ->].
  - eexists. split; [reflexivity |]. simpl. split; [done |].
    by apply appended_nil.
Qed.

End CallLogger.

(** ** The training report builder *)

Section TrainingReport.
Context `{X : Externals}.

Lemma lookup_1_inv (args : list PyVal) (v : PyVal) :
  args !! 1%nat = Some v ->
  exists descr model_path, args !! 0%nat = Some descr /\ last args = Some model_path.
Proof.
  destruct args as [| d [| a rest]]; [discriminate | discriminate |].
  intros _. exists d. destruct (last (d :: a :: rest)) eqn:Hl; [by eexists |].
  by apply last_None in Hl.
Qed.

(** With a logger and a Series in second position, [log_train] is
    [train_and_report] on the world the bootstrap leaves. *)
Lemma log_train_enabled (func : PyFunc) (args : list PyVal) (kwargs : Kwargs)
    (w w1 : World) (logger : LoggerRef) (descr model_path : PyVal) (name : string)
    (values : list Scalar) :
  load_base_loggers_config func w = Return (Some logger) w1 ->
  args !! 0%nat = Some descr ->
  args !! 1%nat = Some (VSeries name values) ->
  last args = Some model_path ->
  log_train func args kwargs w =
  train_and_report func logger args descr model_path name values w1.
Proof.
  intros Hcfg H0 H1 Hl. unfold log_train, bind at 1. rewrite Hcfg.
  unfold bind at 1.
  rewrite (getitem_nat args 0 descr w1 H0 : getitem args 0 w1 = _).
  unfold bind at 1.
  rewrite (getitem_nat args 1 _ w1 H1 : getitem args 1 w1 = _).
  unfold bind at 1. rewrite (getitem_last args model_path w1 Hl).
  reflexivity.
Qed.

(** With logging disabled [log_train] calls the function on the positional
    arguments and drops what it returns. *)
Lemma log_train_disabled_eq (func : PyFunc) (args : list PyVal) (kwargs : Kwargs)
    (w : World) :
  get_level (f_name func) (logging_level (w_session w)) = None ->
  exists L',
    dirs L' = dirs (w_logging w)
    /\ files L' = files (w_logging w)
    /\ (forall name, logger_handlers name L' = logger_handlers name (w_logging w))
    /\ log_train func args kwargs w =
       match f_call func args [] (w_ext w) with
       | Return _ x' =>
           Return VNone (after_call (CallFunc (f_name func) args []) x' (set_logging L' w))
       | Raise e x' =>
           Raise e (after_call (CallFunc (f_name func) args []) x' (set_logging L' w))
       end.
Proof.
  intros Hlv.
  destruct (load_base_loggers_config_disabled func w Hlv) as (L' & Hcfg & Hdirs & Hfiles & Hh).
  exists L'. repeat split; try done.
  unfold log_train, bind. rewrite Hcfg. unfold call, external. simpl.
  by destruct (f_call func args [] (w_ext w)).
Qed.


(** A raise inside [log_train]: nothing follows the failed call. *)
Lemma log_train_reraises (func : PyFunc) (args : list PyVal) (kwargs : Kwargs)
    (w : World) (lv : Z) (name : string) (values : list Scalar) (e : PyExc) (x' : Ext) :
  get_level (f_name func) (logging_level (w_session w)) = Some lv ->
  (length (logger_handlers (f_name func) (w_logging w)) <= 1)%nat ->
  args !! 1%nat = Some (VSeries name values) ->
  f_call func args [] (w_ext w) = Raise e x' ->
  exists w',
    log_train func args kwargs w = Raise e w'
    /\ w_calls w' = w_calls w ++ [CallFunc (f_name func) args []]
    /\ appended (w_logging w) (w_logging w') (sink func w)
         (if isinstance_Exception e
          then [mkLine (asctime x') (f_name func) logging.ERROR (format_exc e)]
          else []).
Proof.
  intros Hlv Hlen H1 Hcall.
  destruct (bootstrap_ready func w lv Hlv Hlen) as (L' & h & Hcfg & Hlines & Hreg & Hsink & Hlv').
  destruct (lookup_1_inv args _ H1) as (descr & model_path & H0 & Hl).
  rewrite (log_train_enabled func args kwargs w _ _ descr model_path name values Hcfg H0 H1 Hl).
  unfold train_and_report, bind, datetime_now, gets, try_except_Exception, call, external.
  simpl. rewrite Hcall. simpl.
  destruct (isinstance_Exception e).
  - set (w2 := mkWorld (w_session w) L' x' (w_calls w ++ [CallFunc (f_name func) args []])).
    destruct (logger_log_single logging.ERROR (f_name func) (format_exc e)
                w2 lv h Hreg Hlv') as (L2 & Hlog & _ & Hlines2).
    unfold logger_error. rewrite Hlog. eexists. split; [reflexivity |].
    simpl. split; [done |].
    apply (appended_after _ L'); [done |]. rewrite <- Hsink.
    replace (lv <=? logging.ERROR) with true in Hlines2; [done |].
    by destruct Hlv' as [-> | ->].
  - eexists. split; [reflexivity |]. simpl. split; [done |].
    by apply appended_nil.
Qed.

(** C5, as the code has it. With logging enabled, an exception raised by
    the wrapped function leaves either decorator unchanged, and the call of
    the function is the last thing the decorator asks of its collaborators: in
    [log_train] no model is loaded, no cross-validation run and no report
    built. When the exception is an instance of [Exception] exactly one line,
    of error severity and carrying the trace, is appended to the logger's
    file; an exception outside [Exception] (a keyboard interrupt, a system
    exit) is not caught and no line is written. *)
Theorem raise_logged_and_reraised (func : PyFunc) (args : list PyVal)
    (kwargs : Kwargs) (w : World) (lv : Z) (e : PyExc) (x' : Ext) :
  get_level (f_name func) (logging_level (w_session w)) = Some lv ->
  (length (logger_handlers (f_name func) (w_logging w)) <= 1)%nat ->
  (f_call func args kwargs (w_ext w) = Raise e x' ->
   exists w',
     log func args kwargs w = Raise e w'
     /\ w_calls w' = w_calls w ++ [CallFunc (f_name func) args kwargs]
     /\ appended (w_logging w) (w_logging w') (sink func w)
          (if isinstance_Exception e
           then [mkLine (asctime x') (f_name func) logging.ERROR (format_exc e)]
           else []))
  /\ (forall name values,
        args !! 1%nat = Some (VSeries name values) ->
        f_call func args [] (w_ext w) = Raise e x' ->
        exists w',
          log_train func args kwargs w = Raise e w'
          /\ w_calls w' = w_calls w ++ [CallFunc (f_name func) args []]
          /\ appended (w_logging w) (w_logging w') (sink func w)
               (if isinstance_Exception e
                then [mkLine (asctime x') (f_name func) logging.ERROR (format_exc e)]
                else [])).
Proof.
  intros Hlv Hlen. split.
  - by apply log_reraises with lv.
  - intros name values. by apply log_train_reraises with lv.
Qed.

(** C7. When the resolver answers [None], [log_train] calls the wrapped
    function once, on the positional arguments alone, and does nothing else:
    that call is the only one made to a collaborator (no model is loaded, no
    prediction or report computed), no directory or file is created, no
    handler is attached to any logger, no line is written. It then returns
    [None], or lets the function's exception through. *)
Theorem log_train_disabled_pass_through (func : PyFunc) (args : list PyVal)
    (kwargs : Kwargs) (w : World) :
  get_level (f_name func) (logging_level (w_session w)) = None ->
  let o := log_train func args kwargs w in
  w_calls (state_of o) = w_calls w ++ [CallFunc (f_name func) args []]
  /\ dirs (w_logging (state_of o)) = dirs (w_logging w)
  /\ files (w_logging (state_of o)) = files (w_logging w)
  /\ (forall name,
        logger_handlers name (w_logging (state_of o))
        = logger_handlers name (w_logging w))
  /\ match f_call func args [] (w_ext w) with
     | Return _ x' => exists w', o = Return VNone w' /\ w_ext w' = x'
     | Raise e x' => exists w', o = Raise e w' /\ w_ext w' = x'
     end.
Proof.
  intros Hlv o. subst o.
  destruct (log_train_disabled_eq func args kwargs w Hlv) as (L' & Hd & Hf & Hh & ->).
  destruct (f_call func args [] (w_ext w)); simpl; repeat split; eauto.
Qed.

End TrainingReport.

(** ** Frame rules *)

(** A relation between the world before and the world after that holds
    across every step of a decorator holds across the decorator. *)
Section Frames.
Context `{X : Externals}.
Variable I : World -> World -> Prop.
Hypothesis I_refl : forall w, I w w.
Hypothesis I_trans : forall w1 w2 w3, I w1 w2 -> I w2 w3 -> I w1 w3.

Lemma preserves_ret {A} (a : A) : preserves I (ret a).
Proof. intros w. apply I_refl. Qed.

Lemma preserves_raise {A} (e : PyExc) : preserves I (raise (A := A) e).
Proof. intros w. apply I_refl. Qed.

Lemma preserves_gets {A} (f : World -> A) : preserves I (gets f).
Proof. intros w. apply I_refl. Qed.

(** A computation that leaves the world as it found it. *)
Lemma preserves_pure {A} (m : Py A) :
  (forall w, state_of (m w) = w) -> preserves I m.
Proof. intros H w. rewrite H. apply I_refl. Qed.

Lemma preserves_bind {A B} (m : Py A) (k : A -> Py B) :
  preserves I m -> (forall a, preserves I (k a)) -> preserves I (bind m k).
Proof.
  intros Hm Hk w. unfold bind. specialize (Hm w).
  destruct (m w) as [a w1 | e w1]; simpl in *; [| exact Hm].
  eapply I_trans; [exact Hm | apply Hk].
Qed.

Lemma preserves_try {A} (body : Py A) (handler : PyExc -> Py A) :
  preserves I body -> (forall e, preserves I (handler e)) ->
  preserves I (try_except_Exception body handler).
Proof.
  intros Hb Hh w. unfold try_except_Exception. specialize (Hb w).
  destruct (body w) as [a w1 | e w1]; simpl in *; [exact Hb |].
  destruct (isinstance_Exception e); [| exact Hb].
  eapply I_trans; [exact Hb | apply Hh].
Qed.

Lemma preserves_if {A} (b : bool) (m1 m2 : Py A) :
  preserves I m1 -> preserves I m2 -> preserves I (if b then m1 else m2).
Proof. by destruct b. Qed.

Lemma preserves_getitem (t : list PyVal) (i : Z) : preserves I (getitem t i).
Proof.
  apply preserves_pure. intros w. unfold getitem.
  by destruct (if (_ && _)%bool then _ else _).
Qed.

Lemma preserves_sorted (xs : list Scalar) : preserves I (sorted xs).
Proof.
  apply preserves_pure. intros w. unfold sorted.
  destruct (as_ints xs); [done |]. by destruct (as_strs xs).
Qed.

Lemma preserves_session_classes (key : string) : preserves I (session_classes key).
Proof.
  apply preserves_pure. intros w. unfold session_classes.
  by destruct (predictions_parameters (w_session w) !! key).
Qed.

Lemma preserves_add_str (v : PyVal) (s : string) : preserves I (add_str v s).
Proof. apply preserves_pure. intros w. by destruct v. Qed.

(** The steps that do change the world: calls to collaborators, among which
    [OK] tells those that keep [I]; records handed to a logger; the logger
    bootstrap. *)
Variable OK : Event -> Prop.
Hypothesis OK_other : forall ev, (forall n a k, ev <> CallFunc n a k) -> OK ev.
Hypothesis I_external :
  forall A ev (f : Ext -> Outcome Ext A), OK ev -> preserves I (external ev f).
Hypothesis I_logger_log :
  forall levelno logger msg, preserves I (logger_log levelno logger msg).
Hypothesis I_bootstrap : forall func, preserves I (load_base_loggers_config func).

Lemma preserves_get_prediction (descr areas model_path : PyVal) :
  preserves I (__get_prediction descr areas model_path).
Proof.
  unfold __get_prediction.
  apply preserves_bind; [apply preserves_add_str | intros path].
  apply preserves_bind; [by apply I_external, OK_other | intros estimator].
  apply preserves_bind; [by apply I_external, OK_other | intros prediction].
  apply preserves_ret.
Qed.

Lemma preserves_binary_report (name : string) (values prediction : list Scalar)
    (target_names : list string) (start : Z) :
  preserves I (binary_report name values prediction target_names start).
Proof.
  unfold binary_report.
  apply preserves_bind; [apply preserves_gets | intros time].
  apply preserves_bind; [by apply I_external, OK_other | intros cr].
  apply preserves_bind; [by apply I_external, OK_other | intros acc].
  apply preserves_bind; [by apply I_external, OK_other | intros auc].
  apply preserves_bind; [by apply I_external, OK_other | intros mcc].
  apply preserves_ret.
Qed.

Lemma preserves_multiclass_report (name : string) (values prediction : list Scalar)
    (start : Z) :
  preserves I (multiclass_report name values prediction start).
Proof.
  unfold multiclass_report.
  apply preserves_bind; [apply preserves_gets | intros time].
  apply preserves_bind; [apply preserves_sorted | intros y_true].
  apply preserves_bind; [apply preserves_session_classes | intros classes].
  apply preserves_bind; [by apply I_external, OK_other | intros cr].
  apply preserves_ret.
Qed.

(** What follows the call of the wrapped function in [train_and_report]. *)
Lemma preserves_after_training (logger : LoggerRef) (descr model_path : PyVal)
    (name : string) (values : list Scalar) (start : Z) :
  preserves I
    (let! prediction := __get_prediction descr (VSeries name values) model_path in
     let! result :=
       (if names_within_01 (str_nat <$> range (length (unique values)))
        then binary_report name values prediction
               (str_nat <$> range (length (unique values))) start
        else multiclass_report name values prediction start) in
     do! logger_info logger result in
     ret VNone).
Proof.
  apply preserves_bind; [apply preserves_get_prediction | intros prediction].
  apply preserves_bind;
    [apply preserves_if; [apply preserves_binary_report | apply preserves_multiclass_report]
    | intros result].
  apply preserves_bind; [apply I_logger_log | intros _; apply preserves_ret].
Qed.

Lemma preserves_train_and_report (func : PyFunc) (logger : LoggerRef)
    (args : list PyVal) (descr model_path : PyVal) (name : string)
    (values : list Scalar) :
  OK (CallFunc (f_name func) args []) ->
  preserves I (train_and_report func logger args descr model_path name values).
Proof.
  intros Hcall. unfold train_and_report.
  apply preserves_bind; [apply preserves_gets | intros start].
  apply preserves_bind.
  - apply preserves_try; [by apply I_external | intros e].
    apply preserves_bind; [apply I_logger_log | intros _; apply preserves_raise].
  - intros _. apply preserves_after_training.
Qed.

Lemma preserves_log_train (func : PyFunc) (args : list PyVal) (kwargs : Kwargs) :
  OK (CallFunc (f_name func) args []) ->
  preserves I (log_train func args kwargs).
Proof.
  intros Hcall. unfold log_train.
  apply preserves_bind; [apply I_bootstrap | intros [logger |]].
  - apply preserves_bind; [apply preserves_getitem | intros descr].
    apply preserves_bind; [apply preserves_getitem | intros areas].
    apply preserves_bind; [apply preserves_getitem | intros model_path].
    destruct areas; try apply preserves_raise. by apply preserves_train_and_report.
  - apply preserves_bind; [by apply I_external | intros _; apply preserves_ret].
Qed.

Lemma preserves_log (func : PyFunc) (args : list PyVal) (kwargs : Kwargs) :
  OK (CallFunc (f_name func) args kwargs) ->
  preserves I (log func args kwargs).
Proof.
  intros Hcall. unfold log.
  apply preserves_bind; [apply I_bootstrap | intros [logger |]]; [| by apply I_external].
  apply preserves_bind; [apply preserves_gets | intros start].
  apply preserves_bind.
  - apply preserves_try; [by apply I_external | intros e].
    apply preserves_bind; [apply I_logger_log | intros _; apply preserves_raise].
  - intros func_result.
    apply preserves_bind; [apply preserves_gets | intros finish].
    apply preserves_bind; [apply I_logger_log | intros _; apply preserves_ret].
Qed.

End Frames.

Section Returns.
Context `{X : Externals}.

Lemma returns_only_ret {A} (P : A -> Prop) (a : A) : P a -> returns_only P (ret a).
Proof. intros Ha w v w' H. by inversion H; subst. Qed.

Lemma returns_only_raise {A} (P : A -> Prop) (e : PyExc) : returns_only P (raise e).
Proof. intros w v w' H. discriminate. Qed.

Lemma returns_only_bind {A B} (P : B -> Prop) (m : Py A) (k : A -> Py B) :
  (forall a, returns_only P (k a)) -> returns_only P (bind m k).
Proof.
  intros Hk w v w'. unfold bind. destruct (m w) as [a w1 | e w1]; [apply Hk | discriminate].
Qed.

End Returns.

(** ** The calls a decorator makes *)

Section Calls.
Context `{X : Externals}.
Variable P : Event -> Prop.

Lemma calls_extend_refl (w : World) : calls_extend P w w.
Proof. exists []. by rewrite app_nil_r. Qed.

Lemma calls_extend_trans (w1 w2 w3 : World) :
  calls_extend P w1 w2 -> calls_extend P w2 w3 -> calls_extend P w1 w3.
Proof.
  intros (evs1 & E1 & F1) (evs2 & E2 & F2). exists (evs1 ++ evs2).
  split; [by rewrite E2, E1, app_assoc | by apply Forall_app].
Qed.

Lemma calls_external {A} (ev : Event) (f : Ext -> Outcome Ext A) :
  P ev -> preserves (calls_extend P) (external ev f).
Proof.
  intros Hev w. unfold external. exists [ev].
  destruct (f (w_ext w)); simpl; split; by try constructor.
Qed.

(** A computation that leaves the record of calls alone. *)
Lemma calls_silent {A} (m : Py A) :
  (forall w, w_calls (state_of (m w)) = w_calls w) -> preserves (calls_extend P) m.
Proof. intros H w. exists []. by rewrite app_nil_r, H. Qed.

Lemma calls_logger_log (levelno : Z) (logger : LoggerRef) (msg : string) :
  preserves (calls_extend P) (logger_log levelno logger msg).
Proof.
  apply calls_silent. intros w. unfold logger_log.
  destruct (registry (w_logging w) !! logger); [| done].
  by destruct (_ <=? _).
Qed.

Lemma calls_load_base_loggers_config (func : PyFunc) :
  preserves (calls_extend P) (load_base_loggers_config func).
Proof.
  apply calls_silent. intros w.
  destruct (get_level (f_name func) (logging_level (w_session w))) as [lv |] eqn:Hlv.
  - destruct (load_base_loggers_config_enabled func w lv Hlv) as (L' & -> & _). done.
  - destruct (load_base_loggers_config_disabled func w Hlv) as (L' & -> & _). done.
Qed.

Hypothesis P_other : forall ev, (forall n a k, ev <> CallFunc n a k) -> P ev.

Lemma calls_after_training (logger : LoggerRef) (descr model_path : PyVal)
    (name : string) (values : list Scalar) (start : Z) :
  preserves (calls_extend P)
    (let! prediction := __get_prediction descr (VSeries name values) model_path in
     let! result :=
       (if names_within_01 (str_nat <$> range (length (unique values)))
        then binary_report name values prediction
               (str_nat <$> range (length (unique values))) start
        else multiclass_report name values prediction start) in
     do! logger_info logger result in
     ret VNone).
Proof.
  apply (preserves_after_training (calls_extend P) calls_extend_refl calls_extend_trans P
           P_other (@calls_external) calls_logger_log).
Qed.

Lemma calls_log_train_of (func : PyFunc) (args : list PyVal) (kwargs : Kwargs) :
  P (CallFunc (f_name func) args []) ->
  preserves (calls_extend P) (log_train func args kwargs).
Proof.
  apply (preserves_log_train (calls_extend P) calls_extend_refl calls_extend_trans P
           P_other (@calls_external) calls_logger_log calls_load_base_loggers_config).
Qed.

End Calls.

Section KeywordArguments.
Context `{X : Externals}.

Lemma positional_only_other (func : PyFunc) (args : list PyVal) (ev : Event) :
  (forall n a k, ev <> CallFunc n a k) -> positional_only func args ev.
Proof.
  destruct ev as [n a k | | | | | |]; intros Hev; simpl; try done.
  by destruct (Hev n a k).
Qed.

Lemma calls_log_train (func : PyFunc) (args : list PyVal) (kwargs : Kwargs) :
  preserves (calls_extend (positional_only func args)) (log_train func args kwargs).
Proof. by apply calls_log_train_of; [apply positional_only_other |]. Qed.

End KeywordArguments.

(** ** One handler per logger *)

Section Handlers.
Context `{X : Externals}.

Lemma at_most_one_handler_refl (w : World) : at_most_one_handler w w.
Proof. by intros name. Qed.

Lemma at_most_one_handler_trans (w1 w2 w3 : World) :
  at_most_one_handler w1 w2 -> at_most_one_handler w2 w3 -> at_most_one_handler w1 w3.
Proof. intros H12 H23 name H. by apply H23, H12. Qed.

Lemma handlers_external {A} (ev : Event) (f : Ext -> Outcome Ext A) :
  True -> preserves at_most_one_handler (external ev f).
Proof. intros _ w name. unfold external. by destruct (f (w_ext w)). Qed.

Lemma handlers_logger_log (levelno : Z) (logger : LoggerRef) (msg : string) :
  preserves at_most_one_handler (logger_log levelno logger msg).
Proof.
  intros w name. unfold logger_log.
  destruct (registry (w_logging w) !! logger); [| done].
  by destruct (_ <=? _).
Qed.

Lemma handlers_load_base_loggers_config (func : PyFunc) :
  preserves at_most_one_handler (load_base_loggers_config func).
Proof.
  intros w name Hle.
  destruct (get_level (f_name func) (logging_level (w_session w))) as [lv |] eqn:Hlv.
  - destruct (load_base_loggers_config_enabled func w lv Hlv)
      as (L' & -> & _ & Hreg & Hother).
    simpl. unfold logger_handlers in *.
    destruct (decide (name = f_name func)) as [-> | Hne].
    + rewrite Hreg. simpl.
      destruct (registry (w_logging w) !! f_name func) as [lg |]; simpl in *;
        [destruct (lg_handlers lg) |]; simpl in *; lia.
    + by rewrite Hother.
  - destruct (load_base_loggers_config_disabled func w Hlv) as (L' & -> & _ & _ & Hh).
    simpl. by rewrite Hh.
Qed.

(** Neither decorator ever gives a logger a second handler: a logger with
    at most one handler before a decorated call has at most one after it. *)
Lemma decorators_keep_one_handler (func : PyFunc) (args : list PyVal) (kwargs : Kwargs) :
  preserves at_most_one_handler (log func args kwargs)
  /\ preserves at_most_one_handler (log_train func args kwargs).
Proof.
  split.
  - by apply (preserves_log at_most_one_handler at_most_one_handler_refl
                at_most_one_handler_trans (fun _ => True)
                (@handlers_external) handlers_logger_log handlers_load_base_loggers_config).
  - by apply (preserves_log_train at_most_one_handler at_most_one_handler_refl
                at_most_one_handler_trans (fun _ => True) (fun _ _ => I)
                (@handlers_external) handlers_logger_log handlers_load_base_loggers_config).
Qed.

End Handlers.

(** ** What [log_train] returns *)

Section ReturnValue.
Context `{X : Externals}.

Lemma logger_log_returns (levelno : Z) (logger : LoggerRef) (msg : string) (w : World) :
  exists L', logger_log levelno logger msg w = Return tt (set_logging L' w).
Proof.
  unfold logger_log. destruct (registry (w_logging w) !! logger).
  - destruct (_ <=? _); [by eexists |]. exists (w_logging w). by destruct w.
  - exists (w_logging w). by destruct w.
Qed.

Lemma returns_None_train_and_report (func : PyFunc) (logger : LoggerRef)
    (args : list PyVal) (descr model_path : PyVal) (name : string) (values : list Scalar) :
  returns_only (fun v => v = VNone)
    (train_and_report func logger args descr model_path name values).
Proof.
  unfold train_and_report.
  apply returns_only_bind; intros start.
  apply returns_only_bind; intros _.
  apply returns_only_bind; intros prediction.
  apply returns_only_bind; intros result.
  apply returns_only_bind; intros _.
  by apply returns_only_ret.
Qed.

Lemma returns_None_log_train (func : PyFunc) (args : list PyVal) (kwargs : Kwargs) :
  returns_only (fun v => v = VNone) (log_train func args kwargs).
Proof.
  unfold log_train. apply returns_only_bind; intros [logger |].
  - apply returns_only_bind; intros descr.
    apply returns_only_bind; intros areas.
    apply returns_only_bind; intros model_path.
    destruct areas; try apply returns_only_raise.
    apply returns_None_train_and_report.
  - apply returns_only_bind; intros _. by apply returns_only_ret.
Qed.

(** The report stage returns when the metrics do and, in the multi-class
    branch, the labels are of one kind and the class names are configured. *)
Lemma report_returns (name : string) (values prediction : list Scalar) (start : Z)
    (w : World) :
  (forall y p n x, exists s x', classification_report y p n x = Return s x') ->
  (forall y p x, exists s x', accuracy_score y p x = Return s x') ->
  (forall y p x, exists s x', roc_auc_score y p x = Return s x') ->
  (forall y p x, exists s x', matthews_corrcoef y p x = Return s x') ->
  ((2 < length (unique values))%nat ->
   (is_Some (as_ints values) \/ is_Some (as_strs values))
   /\ is_Some (predictions_parameters (w_session w) !! (areas_name_of name +:+ "_classes"))) ->
  exists result w',
    (if names_within_01 (str_nat <$> range (length (unique values)))
     then binary_report name values prediction
            (str_nat <$> range (length (unique values))) start
     else multiclass_report name values prediction start) w = Return result w'.
Proof.
  intros Hr Ha Hu Hm Hmulti.
  destruct (names_within_01 _) eqn:Hb.
  - unfold binary_report, bind, datetime_now, gets, external. simpl.
    destruct (Hr values prediction (str_nat <$> range (length (unique values))) (w_ext w))
      as (cr & x1 & ->). simpl.
    destruct (Ha values prediction x1) as (acc & x2 & ->). simpl.
    destruct (Hu values prediction x2) as (auc & x3 & ->). simpl.
    destruct (Hm values prediction x3) as (mcc & x4 & ->). simpl.
    by eexists _, _.
  - assert (Hgt : (2 < length (unique values))%nat).
    { destruct (decide (length (unique values) <= 2)%nat) as [Hle |]; [| lia].
      apply names_within_01_range in Hle. congruence. }
    destruct (Hmulti Hgt) as (Hkind & classes & Hkey).
    destruct (sorted_total values w Hkind) as (y_true & Hsorted).
    unfold multiclass_report, bind, datetime_now, gets, external, session_classes. simpl.
    rewrite Hsorted, Hkey. simpl.
    destruct (Hr y_true prediction classes (w_ext w)) as (cr & x1 & ->). simpl.
    by eexists _, _.
Qed.


(** On well-formed arguments, with collaborators that return, the enabled
    path of [log_train] runs to its end. *)
Lemma log_train_success (func : PyFunc) (args : list PyVal) (kwargs : Kwargs)
    (w : World) (lv : Z) (descr : PyVal) (name : string) (values : list Scalar)
    (path : string) :
  get_level (f_name func) (logging_level (w_session w)) = Some lv ->
  args !! 0%nat = Some descr ->
  args !! 1%nat = Some (VSeries name values) ->
  last args = Some (VStr path) ->
  (forall x, exists r x', f_call func args [] x = Return r x') ->
  (forall x, exists m x', pickle_load (path +:+ ".sav") x = Return m x') ->
  (forall m x, exists p x',
      cross_val_predict m descr (VSeries name values) 10 4 x = Return p x') ->
  (forall y p n x, exists s x', classification_report y p n x = Return s x') ->
  (forall y p x, exists s x', accuracy_score y p x = Return s x') ->
  (forall y p x, exists s x', roc_auc_score y p x = Return s x') ->
  (forall y p x, exists s x', matthews_corrcoef y p x = Return s x') ->
  ((2 < length (unique values))%nat ->
   (is_Some (as_ints values) \/ is_Some (as_strs values))
   /\ is_Some (predictions_parameters (w_session w) !! (areas_name_of name +:+ "_classes"))) ->
  exists w', log_train func args kwargs w = Return VNone w'.
Proof.
  intros Hlv H0 H1 Hl Hf Hp Hc Hr Ha Hu Hm Hmulti.
  destruct (load_base_loggers_config_enabled func w lv Hlv) as (L' & Hcfg & _).
  rewrite (log_train_enabled func args kwargs w _ _ descr _ name values Hcfg H0 H1 Hl).
  unfold train_and_report, bind, datetime_now, gets, try_except_Exception, call, external.
  simpl. destruct (Hf (w_ext w)) as (r & x1 & ->). simpl.
  unfold __get_prediction, bind, add_str, ret, external. simpl.
  destruct (Hp x1) as (m & x2 & ->). simpl.
  destruct (Hc m x2) as (prediction & x3 & ->). simpl.
  set (w3 := mkWorld _ _ _ _).
  destruct (report_returns name values prediction (now (w_ext w)) w3 Hr Ha Hu Hm Hmulti)
    as (result & w4 & ->).
  destruct (logger_log_returns logging.INFO (f_name func) result w4) as (L4 & Hlog).
  unfold logger_info. rewrite Hlog. by eexists.
Qed.

(** C6. [log_train] has no value of its own: whatever the arguments, the
    world and the wrapped function, a call that returns returns [None]. It
    does return, with [None], on the disabled path whenever the wrapped
    function returns (whatever value), and on the enabled path whenever the
    arguments are well formed and the function and the collaborators of the
    report return. *)
Theorem log_train_returns_None (func : PyFunc) (args : list PyVal) (kwargs : Kwargs)
    (w : World) :
  (forall v w', log_train func args kwargs w = Return v w' -> v = VNone)
  /\ (get_level (f_name func) (logging_level (w_session w)) = None ->
      forall r x', f_call func args [] (w_ext w) = Return r x' ->
      exists w', log_train func args kwargs w = Return VNone w')
  /\ (forall lv descr name values path,
        get_level (f_name func) (logging_level (w_session w)) = Some lv ->
        args !! 0%nat = Some descr ->
        args !! 1%nat = Some (VSeries name values) ->
        last args = Some (VStr path) ->
        (forall x, exists r x', f_call func args [] x = Return r x') ->
        (forall x, exists m x', pickle_load (path +:+ ".sav") x = Return m x') ->
        (forall m x, exists p x',
            cross_val_predict m descr (VSeries name values) 10 4 x = Return p x') ->
        (forall y p n x, exists s x', classification_report y p n x = Return s x') ->
        (forall y p x, exists s x', accuracy_score y p x = Return s x') ->
        (forall y p x, exists s x', roc_auc_score y p x = Return s x') ->
        (forall y p x, exists s x', matthews_corrcoef y p x = Return s x') ->
        ((2 < length (unique values))%nat ->
         (is_Some (as_ints values) \/ is_Some (as_strs values))
         /\ is_Some (predictions_parameters (w_session w)
                       !! (areas_name_of name +:+ "_classes"))) ->
        exists w', log_train func args kwargs w = Return VNone w').
Proof.
  split; [| split].
  - intros v w'. apply returns_None_log_train.
  - intros Hlv r x' Hcall.
    destruct (log_train_disabled_eq func args kwargs w Hlv) as (L' & _ & _ & _ & ->).
    rewrite Hcall. by eexists.
  - intros lv descr name values path. apply log_train_success.
Qed.

End ReturnValue.

(** ** Keyword arguments *)

Section DroppedKeywords.
Context `{X : Externals}.

(** In [train_and_report] the call of the wrapped function comes first. *)
Lemma train_and_report_calls_first (func : PyFunc) (logger : LoggerRef)
    (args : list PyVal) (descr model_path : PyVal) (name : string)
    (values : list Scalar) (w : World) :
  exists evs,
    w_calls (state_of (train_and_report func logger args descr model_path name values w))
    = w_calls w ++ CallFunc (f_name func) args [] :: evs.
Proof.
  unfold train_and_report. unfold bind at 1, datetime_now, gets.
  unfold bind at 1, try_except_Exception, call, external.
  destruct (f_call func args [] (w_ext w)) as [r x1 | e x1].
  - match goal with
    | |- context [state_of (?k ?w2)] =>
        destruct (calls_after_training (fun _ => True) (fun _ _ => I) logger descr
                    model_path name values (now (w_ext w)) w2) as (evs & Hevs & _)
    end.
    exists evs. rewrite Hevs. simpl. by rewrite <- app_assoc.
  - exists []. destruct (isinstance_Exception e); [| done].
    unfold bind, logger_error.
    match goal with
    | |- context [logger_log ?l ?n ?m ?w2] =>
        destruct (logger_log_returns l n m w2) as (L2 & ->)
    end.
    done.
Qed.

(** C10. [log_train] takes keyword arguments and never hands them on: its
    outcome does not depend on them, and every call of the wrapped function it
    makes passes the positional arguments and no keyword. That call is made
    on the disabled path, where it is the only call, and on the enabled path
    as soon as the second positional argument is a Series, where it is the
    first call. The call is the function itself, applied to the positional
    arguments and the empty keyword dictionary in the external state the
    decorator was entered with. On the disabled path the decorator raises
    what this application raises and returns [None] when it returns, in the
    external state the application left. On the enabled path it raises what
    the application raises, in the state it left and with nothing asked
    after it; when the application returns, the rest of the run (prediction,
    report, line) starts from the state it left. *)
Theorem log_train_drops_kwargs (func : PyFunc) (args : list PyVal) (kwargs : Kwargs)
    (w : World) :
  log_train func args kwargs w = log_train func args [] w
  /\ calls_extend (positional_only func args) w (state_of (log_train func args kwargs w))
  /\ (get_level (f_name func) (logging_level (w_session w)) = None ->
      w_calls (state_of (log_train func args kwargs w))
      = w_calls w ++ [CallFunc (f_name func) args []])
  /\ (forall lv name values,
        get_level (f_name func) (logging_level (w_session w)) = Some lv ->
        args !! 1%nat = Some (VSeries name values) ->
        exists evs,
          w_calls (state_of (log_train func args kwargs w))
          = w_calls w ++ CallFunc (f_name func) args [] :: evs)
  /\ (get_level (f_name func) (logging_level (w_session w)) = None ->
      match f_call func args [] (w_ext w) with
      | Return _ x' =>
          exists w', log_train func args kwargs w = Return VNone w' /\ w_ext w' = x'
      | Raise e x' =>
          exists w', log_train func args kwargs w = Raise e w' /\ w_ext w' = x'
      end)
  /\ (forall lv name values,
        get_level (f_name func) (logging_level (w_session w)) = Some lv ->
        args !! 1%nat = Some (VSeries name values) ->
        match f_call func args [] (w_ext w) with
        | Raise e x' =>
            exists w',
              log_train func args kwargs w = Raise e w'
              /\ w_ext w' = x'
              /\ w_calls w' = w_calls w ++ [CallFunc (f_name func) args []]
        | Return _ x' =>
            exists L' descr model_path,
              load_base_loggers_config func w
              = Return (Some (f_name func)) (set_logging L' w)
              /\ args !! 0%nat = Some descr
              /\ last args = Some model_path
              /\ log_train func args kwargs w
                 = (let! prediction :=
                      __get_prediction descr (VSeries name values) model_path in
                    let! result :=
                      (if names_within_01 (str_nat <$> range (length (unique values)))
                       then binary_report name values prediction
                              (str_nat <$> range (length (unique values)))
                              (now (w_ext w))
                       else multiclass_report name values prediction (now (w_ext w))) in
                    do! logger_info (f_name func) result in
                    ret VNone)
                   (mkWorld (w_session w) L' x'
                      (w_calls w ++ [CallFunc (f_name func) args []]))
        end).
Proof.
  split; [reflexivity |]. split; [apply calls_log_train |]. split; [| split; [| split]].
  - intros Hlv.
    destruct (log_train_disabled_eq func args kwargs w Hlv) as (L' & _ & _ & _ & ->).
    by destruct (f_call func args [] (w_ext w)).
  - intros lv name values Hlv H1.
    destruct (load_base_loggers_config_enabled func w lv Hlv) as (L' & Hcfg & _).
    destruct (lookup_1_inv args _ H1) as (descr & model_path & H0 & Hl).
    rewrite (log_train_enabled func args kwargs w _ _ descr model_path name values
               Hcfg H0 H1 Hl).
    destruct (train_and_report_calls_first func (f_name func) args descr model_path
                name values (set_logging L' w)) as (evs & Hevs).
    by exists evs.
  - intros Hlv.
    destruct (log_train_disabled_eq func args kwargs w Hlv) as (L' & _ & _ & _ & ->).
    destruct (f_call func args [] (w_ext w)) as [r x' | e x']; by eexists.
  - intros lv name values Hlv H1.
    destruct (load_base_loggers_config_enabled func w lv Hlv) as (L' & Hcfg & _).
    destruct (lookup_1_inv args _ H1) as (descr & model_path & H0 & Hl).
    rewrite (log_train_enabled func args kwargs w _ _ descr model_path name values
               Hcfg H0 H1 Hl).
    assert (Hrun :
      train_and_report func (f_name func) args descr model_path name values
        (set_logging L' w)
      = match f_call func args [] (w_ext w) with
        | Return _ x' =>
            (let! prediction :=
               __get_prediction descr (VSeries name values) model_path in
             let! result :=
               (if names_within_01 (str_nat <$> range (length (unique values)))
                then binary_report name values prediction
                       (str_nat <$> range (length (unique values)))
                       (now (w_ext w))
                else multiclass_report name values prediction (now (w_ext w))) in
             do! logger_info (f_name func) result in
             ret VNone)
            (mkWorld (w_session w) L' x'
               (w_calls w ++ [CallFunc (f_name func) args []]))
        | Raise e x' =>
            if isinstance_Exception e
            then (do! logger_error (f_name func) (format_exc e) in raise e)
                   (mkWorld (w_session w) L' x'
                      (w_calls w ++ [CallFunc (f_name func) args []]))
            else Raise e (mkWorld (w_session w) L' x'
                            (w_calls w ++ [CallFunc (f_name func) args []]))
        end).
    { unfold train_and_report. unfold bind at 1, datetime_now, gets.
      unfold bind at 1, try_except_Exception, call, external. simpl.
      destruct (f_call func args [] (w_ext w)) as [r x' | e x']; [done |].
      destruct (isinstance_Exception e); [| done].
      unfold bind, logger_error.
      match goal with
      | |- context [logger_log ?l ?n ?m ?w2] =>
          destruct (logger_log_returns l n m w2) as (L2 & ->)
      end.
      done. }
    rewrite Hrun. clear Hrun.
    destruct (f_call func args [] (w_ext w)) as [r x' | e x'].
    + by exists L', descr, model_path.
    + destruct (isinstance_Exception e); [| by eexists].
      unfold bind, logger_error.
      match goal with
      | |- context [logger_log ?l ?n ?m ?w2] =>
          destruct (logger_log_returns l n m w2) as (L2 & ->)
      end.
      by eexists.
Qed.

End DroppedKeywords.

(** ** The branch of the report *)

Section Branches.
Context `{X : Externals}.

Lemma names_within_01_decide (n : nat) :
  names_within_01 (str_nat <$> range n) = bool_decide (n <= 2)%nat.
Proof.
  destruct (decide (n <= 2)%nat) as [Hle | Hgt].
  - rewrite (bool_decide_eq_true_2 _ Hle). by apply names_within_01_range.
  - rewrite (bool_decide_eq_false_2 _ Hgt).
    destruct (names_within_01 _) eqn:Hb; [| done].
    by apply names_within_01_range in Hb.
Qed.

(** The enabled run up to the choice of the branch: the function has
    returned, the model has been loaded and cross-validation has predicted
    [prediction]. *)
Lemma log_train_reaches_report (func : PyFunc) (args : list PyVal) (kwargs : Kwargs)
    (w : World) (lv : Z) (descr : PyVal) (name : string) (values : list Scalar)
    (path : string) (r : PyVal) (x1 : Ext) (m : Model) (x2 : Ext)
    (prediction : list Scalar) (x3 : Ext) :
  get_level (f_name func) (logging_level (w_session w)) = Some lv ->
  args !! 0%nat = Some descr ->
  args !! 1%nat = Some (VSeries name values) ->
  last args = Some (VStr path) ->
  f_call func args [] (w_ext w) = Return r x1 ->
  pickle_load (path +:+ ".sav") x1 = Return m x2 ->
  cross_val_predict m descr (VSeries name values) 10 4 x2 = Return prediction x3 ->
  exists L',
    log_train func args kwargs w =
    (let! result :=
       (if names_within_01 (str_nat <$> range (length (unique values)))
        then binary_report name values prediction
               (str_nat <$> range (length (unique values))) (now (w_ext w))
        else multiclass_report name values prediction (now (w_ext w))) in
     do! logger_info (f_name func) result in
     ret VNone)
      (mkWorld (w_session w) L' x3
         (w_calls w ++ [CallFunc (f_name func) args [];
                        PickleLoad (path +:+ ".sav");
                        CrossValPredict descr (VSeries name values) 10 4])).
Proof.
  intros Hlv H0 H1 Hl Hf Hp Hc.
  destruct (load_base_loggers_config_enabled func w lv Hlv) as (L' & Hcfg & _).
  exists L'.
  rewrite (log_train_enabled func args kwargs w _ _ descr _ name values Hcfg H0 H1 Hl).
  unfold train_and_report.
  unfold bind at 1, datetime_now, gets.
  unfold bind at 1, try_except_Exception, call, external. simpl. rewrite Hf.
  unfold bind at 1, __get_prediction, bind, add_str, ret, external. simpl.
  rewrite Hp. simpl. rewrite Hc. simpl.
  by rewrite <- !app_assoc.
Qed.


(** C1, as the code has it. Once the function has returned and
    cross-validation has predicted, [log_train] builds the binary report
    (classification report, accuracy, ROC-AUC and Matthews coefficient)
    exactly when the area series has at most two distinct labels, whatever
    the labels are, and the multi-class report when it has three or more:
    the test is made on the positional names "0", "1", ... and not on the
    labels. [unique values] lists every label of the series once. *)
Theorem binary_branch_iff_at_most_two_labels (func : PyFunc) (args : list PyVal)
    (kwargs : Kwargs) (w : World) (lv : Z) (descr : PyVal) (name : string)
    (values : list Scalar) (path : string) (r : PyVal) (x1 : Ext) (m : Model)
    (x2 : Ext) (prediction : list Scalar) (x3 : Ext) :
  get_level (f_name func) (logging_level (w_session w)) = Some lv ->
  args !! 0%nat = Some descr ->
  args !! 1%nat = Some (VSeries name values) ->
  last args = Some (VStr path) ->
  f_call func args [] (w_ext w) = Return r x1 ->
  pickle_load (path +:+ ".sav") x1 = Return m x2 ->
  cross_val_predict m descr (VSeries name values) 10 4 x2 = Return prediction x3 ->
  NoDup (unique values)
  /\ (forall label, label ∈ unique values <-> label ∈ values)
  /\ exists L',
       log_train func args kwargs w =
       (let! result :=
          (if bool_decide (length (unique values) <= 2)%nat
           then binary_report name values prediction
                  (str_nat <$> range (length (unique values))) (now (w_ext w))
           else multiclass_report name values prediction (now (w_ext w))) in
        do! logger_info (f_name func) result in
        ret VNone)
         (mkWorld (w_session w) L' x3
            (w_calls w ++ [CallFunc (f_name func) args [];
                           PickleLoad (path +:+ ".sav");
                           CrossValPredict descr (VSeries name values) 10 4])).
Proof.
  intros Hlv H0 H1 Hl Hf Hp Hc.
  split; [apply NoDup_unique |]. split; [intros label; apply elem_of_unique |].
  destruct (log_train_reaches_report func args kwargs w lv descr name values path
              r x1 m x2 prediction x3 Hlv H0 H1 Hl Hf Hp Hc) as (L' & Heq).
  exists L'. rewrite Heq. by rewrite names_within_01_decide.
Qed.

(** The multi-class report once the labels are sorted and the class names
    of the area found. *)
Lemma multiclass_report_run (name : string) (values prediction y_true : list Scalar)
    (start : Z) (w : World) (classes : list string) :
  sorted values w = Return y_true w ->
  predictions_parameters (w_session w) !! (areas_name_of name +:+ "_classes")
  = Some classes ->
  multiclass_report name values prediction start w =
  (let! cr :=
     external (ClassificationReport y_true prediction classes)
       (classification_report y_true prediction classes) in
   ret (report_text (now (w_ext w) - start) (areas_name_of name) cr)) w.
Proof.
  intros Hsorted Hkey.
  unfold multiclass_report. unfold bind at 1, datetime_now, gets.
  unfold bind at 1. rewrite Hsorted.
  unfold bind at 1, session_classes. by rewrite Hkey.
Qed.

(** The calls of an enabled multi-class run in which the true labels sort
    to [y_true]. *)
Lemma log_train_multiclass_calls (func : PyFunc) (args : list PyVal) (kwargs : Kwargs)
    (w : World) (lv : Z) (descr : PyVal) (name : string) (values : list Scalar)
    (path : string) (r : PyVal) (x1 : Ext) (m : Model) (x2 : Ext)
    (prediction : list Scalar) (x3 : Ext) (y_true : list Scalar)
    (classes : list string) :
  get_level (f_name func) (logging_level (w_session w)) = Some lv ->
  args !! 0%nat = Some descr ->
  args !! 1%nat = Some (VSeries name values) ->
  last args = Some (VStr path) ->
  f_call func args [] (w_ext w) = Return r x1 ->
  pickle_load (path +:+ ".sav") x1 = Return m x2 ->
  cross_val_predict m descr (VSeries name values) 10 4 x2 = Return prediction x3 ->
  (2 < length (unique values))%nat ->
  (forall w', sorted values w' = Return y_true w') ->
  predictions_parameters (w_session w) !! (areas_name_of name +:+ "_classes")
  = Some classes ->
  w_calls (state_of (log_train func args kwargs w))
  = w_calls w ++ [CallFunc (f_name func) args [];
                  PickleLoad (path +:+ ".sav");
                  CrossValPredict descr (VSeries name values) 10 4;
                  ClassificationReport y_true prediction classes].
Proof.
  intros Hlv H0 H1 Hl Hf Hp Hc Hgt Hsorted Hkey.
  destruct (log_train_reaches_report func args kwargs w lv descr name values path
              r x1 m x2 prediction x3 Hlv H0 H1 Hl Hf Hp Hc) as (L' & ->).
  rewrite names_within_01_decide, bool_decide_eq_false_2 by lia.
  set (w3 := mkWorld _ _ _ _).
  unfold bind at 1.
  rewrite (multiclass_report_run name values prediction y_true (now (w_ext w)) w3
             classes (Hsorted w3) Hkey).
  unfold bind at 1, external.
  destruct (classification_report y_true prediction classes (w_ext w3)) as [cr x4 | e x4].
  - unfold ret at 1. unfold bind at 1, logger_info.
    match goal with
    | |- context [logger_log ?l ?n ?msg ?w4] =>
        destruct (logger_log_returns l n msg w4) as (L4 & ->)
    end.
    simpl. by rewrite <- app_assoc.
  - simpl. by rewrite <- app_assoc.
Qed.


Lemma areas_name_of_cases (name : string) :
  (is_substring "priority" (lower name) -> areas_name_of name = "priority")
  /\ (~ is_substring "priority" (lower name) -> is_substring "ttr" (lower name) ->
      areas_name_of name = "ttr")
  /\ (~ is_substring "priority" (lower name) -> ~ is_substring "ttr" (lower name) ->
      areas_name_of name = "").
Proof.
  unfold areas_name_of, is_substring.
  destruct (contains "priority" (lower name)) eqn:Hp;
    [apply contains_true_iff in Hp
    | assert (~ exists pre post, lower name = pre +:+ "priority" +:+ post) as Hp'
        by (rewrite <- contains_true_iff; congruence)];
    (destruct (contains "ttr" (lower name)) eqn:Ht;
     [apply contains_true_iff in Ht
     | assert (~ exists pre post, lower name = pre +:+ "ttr" +:+ post) as Ht'
         by (rewrite <- contains_true_iff; congruence)]);
    intuition.
Qed.

(** C3, as the code has it. In the multi-class branch the area name comes
    from the series name put in lower case: "priority" when that contains
    "priority", else "ttr" when it contains "ttr", else the empty string;
    the match is thus blind to case. The target names of the report are the
    session's class names under [<area name>_classes]; when the session has
    no such entry the decorator raises [KeyError] for that key. *)
Theorem multiclass_area_name_from_lowered_name (func : PyFunc)
    (args : list PyVal) (kwargs : Kwargs) (w : World) (lv : Z) (descr : PyVal)
    (name : string) (values : list Scalar) (path : string) (r : PyVal) (x1 : Ext)
    (m : Model) (x2 : Ext) (prediction : list Scalar) (x3 : Ext) :
  get_level (f_name func) (logging_level (w_session w)) = Some lv ->
  args !! 0%nat = Some descr ->
  args !! 1%nat = Some (VSeries name values) ->
  last args = Some (VStr path) ->
  f_call func args [] (w_ext w) = Return r x1 ->
  pickle_load (path +:+ ".sav") x1 = Return m x2 ->
  cross_val_predict m descr (VSeries name values) 10 4 x2 = Return prediction x3 ->
  (2 < length (unique values))%nat ->
  is_Some (as_ints values) \/ is_Some (as_strs values) ->
  let area := areas_name_of name in
  (is_substring "priority" (lower name) -> area = "priority")
  /\ (~ is_substring "priority" (lower name) -> is_substring "ttr" (lower name) ->
      area = "ttr")
  /\ (~ is_substring "priority" (lower name) -> ~ is_substring "ttr" (lower name) ->
      area = "")
  /\ (forall classes,
        predictions_parameters (w_session w) !! (area +:+ "_classes") = Some classes ->
        exists y_true,
          w_calls (state_of (log_train func args kwargs w))
          = w_calls w ++ [CallFunc (f_name func) args [];
                          PickleLoad (path +:+ ".sav");
                          CrossValPredict descr (VSeries name values) 10 4;
                          ClassificationReport y_true prediction classes])
  /\ (predictions_parameters (w_session w) !! (area +:+ "_classes") = None ->
      exists w', log_train func args kwargs w = Raise (KeyError (area +:+ "_classes")) w').
Proof.
  intros Hlv H0 H1 Hl Hf Hp Hc Hgt Hkind area.
  destruct (areas_name_of_cases name) as (Hprio & Httr & Hnone).
  repeat split; try done.
  - intros classes Hkey.
    destruct (sorted_total values w Hkind) as (y_true & Hsorted).
    exists y_true.
    apply (log_train_multiclass_calls func args kwargs w lv descr name values path
             r x1 m x2 prediction x3 y_true classes); try done.
    intros w'. by apply (sorted_any_world values y_true w).
  - intros Hkey.
    destruct (log_train_reaches_report func args kwargs w lv descr name values path
                r x1 m x2 prediction x3 Hlv H0 H1 Hl Hf Hp Hc) as (L' & ->).
    rewrite names_within_01_decide, bool_decide_eq_false_2 by lia.
    set (w3 := mkWorld _ _ _ _).
    destruct (sorted_total values w3 Hkind) as (y_true & Hsorted).
    unfold bind at 1, multiclass_report. unfold bind at 1, datetime_now, gets.
    unfold bind at 1. rewrite Hsorted.
    unfold bind at 1, session_classes. fold area. simpl. rewrite Hkey.
    by eexists.
Qed.

End Branches.

(** * The decorators on concrete calls *)

Section Runs.
Import Demo.

(** ** Where the specification and the code part *)

(** An area series of twenty labels, 3 and 7 in turn: its label set is not
    {0, 1}, and [log_train] builds the binary report, scores included. *)
Lemma binary_branch_on_labels_3_and_7 :
  ~ (forall label, label ∈ labels_3_7 <-> label = SInt 0 \/ label = SInt 1)
  /\ returned (log_train train args_3_7 [] (world0 "INFO")) = Some VNone
  /\ w_calls (state_of (log_train train args_3_7 [] (world0 "INFO")))
     = [CallFunc "train" args_3_7 [];
        PickleLoad "model.sav";
        CrossValPredict (descriptions 20) (VSeries "Resolution" labels_3_7) 10 4;
        ClassificationReport labels_3_7 labels_3_7 ["0"; "1"];
        AccuracyScore labels_3_7 labels_3_7;
        RocAucScore labels_3_7 labels_3_7;
        MatthewsCorrcoef labels_3_7 labels_3_7].
Proof.
  split; [| split; vm_compute; reflexivity].
  intros H. assert (Hin : SInt 3 ∈ labels_3_7) by (vm_compute; apply list_elem_of_here).
  apply H in Hin as [Hin | Hin]; discriminate.
Qed.

(** A series named "Priority": the name holds neither "priority" nor "ttr",
    so the specification's match gives the empty area name; the code lowers
    the name first, finds "priority" and reads the priority classes. *)
Lemma area_name_of_capitalised_Priority :
  ~ is_substring "priority" "Priority"
  /\ ~ is_substring "ttr" "Priority"
  /\ areas_name_spec "Priority" = ""
  /\ areas_name_of "Priority" = "priority"
  /\ w_calls (state_of (log_train train args_Priority [] (world0 "INFO")))
     = [CallFunc "train" args_Priority [];
        PickleLoad "model.sav";
        CrossValPredict (descriptions 30) (VSeries "Priority" priorities) 10 4;
        ClassificationReport
          (replicate 10 (SInt 1) ++ replicate 10 (SInt 2) ++ replicate 10 (SInt 3))
          priorities
          ["Low"; "Medium"; "High"]].
Proof.
  split; [| split]; [| | repeat split; vm_compute; reflexivity].
  - unfold is_substring. rewrite <- contains_true_iff. by vm_compute.
  - unfold is_substring. rewrite <- contains_true_iff. by vm_compute.
Qed.

(** Level "ERROR": logging is enabled and a logger is set up, the function
    returns and so does [log], yet the log file stays empty. *)
Lemma log_at_level_ERROR_writes_no_line :
  get_level "count_kwargs" "ERROR" = Some logging.ERROR
  /\ returned (load_base_loggers_config count_kwargs (world0 "ERROR"))
     = Some (Some "count_kwargs")
  /\ returned (log count_kwargs args_3_7 some_kwargs (world0 "ERROR")) = Some (VInt 1)
  /\ files (w_logging (state_of (log count_kwargs args_3_7 some_kwargs (world0 "ERROR"))))
     = {[ "logs/2019-05-01/s1.log" := [] ]}.
Proof. repeat split; vm_compute; reflexivity. Qed.

(** A wrapped function stopped by a keyboard interrupt, logging enabled:
    the interrupt goes through both decorators and no line is written. *)
Lemma keyboard_interrupt_leaves_no_error_line :
  get_level "interrupted" "INFO" = Some logging.INFO
  /\ raised (log interrupted args_3_7 some_kwargs (world0 "INFO"))
     = Some (mkExc KeyboardInterrupt "")
  /\ files (w_logging (state_of (log interrupted args_3_7 some_kwargs (world0 "INFO"))))
     = {[ "logs/2019-05-01/s1.log" := [] ]}
  /\ raised (log_train interrupted args_3_7 some_kwargs (world0 "INFO"))
     = Some (mkExc KeyboardInterrupt "")
  /\ files (w_logging
              (state_of (log_train interrupted args_3_7 some_kwargs (world0 "INFO"))))
     = {[ "logs/2019-05-01/s1.log" := [] ]}.
Proof. repeat split; vm_compute; reflexivity. Qed.

End Runs.

(** ** The theorems on concrete calls *)

Section Witnesses.
Import Demo.

(** [log_returns_result] on a call of [count_kwargs] at level "INFO", from
    a world with no logger yet. *)
Lemma log_returns_result_witness :
  f_call count_kwargs args_3_7 some_kwargs (w_ext (world0 "INFO")) = Return (VInt 1) 1
  /\ (length (logger_handlers (f_name count_kwargs) (w_logging (world0 "INFO"))) <= 1)%nat
  /\ exists w',
       log count_kwargs args_3_7 some_kwargs (world0 "INFO") = Return (VInt 1) w'
       /\ w_ext w' = 1
       /\ w_calls w' = [CallFunc "count_kwargs" args_3_7 some_kwargs]
       /\ appended (w_logging (world0 "INFO")) (w_logging w') "logs/2019-05-01/s1.log"
            [mkLine "1" "count_kwargs" logging.INFO
               (log_message count_kwargs args_3_7 some_kwargs 1 (VInt 1))].
Proof.
  split; [reflexivity |]. split; [vm_compute; lia |].
  destruct (log_returns_result count_kwargs args_3_7 some_kwargs (world0 "INFO")
              (VInt 1) 1 eq_refl ltac:(vm_compute; lia))
    as (w' & Hlog & Hext & Hcalls & _ & Happ).
  exists w'. repeat split; assumption.
Defined.

(** [raise_logged_and_reraised] on a function that raises a [ValueError], at
    level "INFO". *)
Lemma raise_logged_and_reraised_witness :
  get_level (f_name failing) (logging_level (w_session (world0 "INFO"))) = Some 20
  /\ (length (logger_handlers (f_name failing) (w_logging (world0 "INFO"))) <= 1)%nat
  /\ (exists w',
        log failing args_3_7 some_kwargs (world0 "INFO") = Raise value_error w'
        /\ w_calls w' = [CallFunc "failing" args_3_7 some_kwargs]
        /\ appended (w_logging (world0 "INFO")) (w_logging w') "logs/2019-05-01/s1.log"
             [mkLine "1" "failing" logging.ERROR (format_exc value_error)])
  /\ (exists w',
        log_train failing args_3_7 some_kwargs (world0 "INFO") = Raise value_error w'
        /\ w_calls w' = [CallFunc "failing" args_3_7 []]
        /\ appended (w_logging (world0 "INFO")) (w_logging w') "logs/2019-05-01/s1.log"
             [mkLine "1" "failing" logging.ERROR (format_exc value_error)]).
Proof.
  split; [reflexivity |]. split; [vm_compute; lia |].
  destruct (raise_logged_and_reraised failing args_3_7 some_kwargs (world0 "INFO") 20
              value_error 1 eq_refl ltac:(vm_compute; lia)) as [Hlog Htrain].
  split.
  - exact (Hlog eq_refl).
  - exact (Htrain "Resolution" labels_3_7 eq_refl eq_refl).
Defined.

(** [log_train_disabled_pass_through] at the level "DO NOT LOG". *)
Lemma log_train_disabled_pass_through_witness :
  get_level (f_name train) (logging_level (w_session (world0 "DO NOT LOG"))) = None
  /\ w_calls (state_of (log_train train args_3_7 some_kwargs (world0 "DO NOT LOG")))
     = [CallFunc "train" args_3_7 []]
  /\ dirs (w_logging (state_of (log_train train args_3_7 some_kwargs (world0 "DO NOT LOG"))))
     = ∅
  /\ files (w_logging (state_of (log_train train args_3_7 some_kwargs (world0 "DO NOT LOG"))))
     = ∅
  /\ exists w',
       log_train train args_3_7 some_kwargs (world0 "DO NOT LOG") = Return VNone w'
       /\ w_ext w' = 1.
Proof.
  split; [reflexivity |].
  destruct (log_train_disabled_pass_through train args_3_7 some_kwargs
              (world0 "DO NOT LOG") eq_refl) as (Hcalls & Hdirs & Hfiles & _ & Hret).
  repeat split; assumption.
Defined.


(** [log_train_returns_None] on a function that returns 7: at the level
    "DO NOT LOG", and at level "INFO" on thirty priorities. *)
Lemma log_train_returns_None_witness :
  get_level (f_name train) (logging_level (w_session (world0 "DO NOT LOG"))) = None
  /\ f_call train args_3_7 [] (w_ext (world0 "DO NOT LOG")) = Return (VInt 7) 1
  /\ (exists w', log_train train args_3_7 some_kwargs (world0 "DO NOT LOG") = Return VNone w')
  /\ get_level (f_name train) (logging_level (w_session (world0 "INFO"))) = Some 20
  /\ args_priority !! 1%nat = Some (VSeries "priority_codes" priorities)
  /\ last args_priority = Some (VStr "model")
  /\ (exists w', log_train train args_priority some_kwargs (world0 "INFO") = Return VNone w')
  /\ (forall v w',
        log_train train args_3_7 some_kwargs (world0 "INFO") = Return v w' -> v = VNone).
Proof.
  destruct (log_train_returns_None train args_3_7 some_kwargs (world0 "DO NOT LOG"))
    as (_ & Hdisabled & _).
  destruct (log_train_returns_None train args_priority some_kwargs (world0 "INFO"))
    as (_ & _ & Henabled).
  destruct (log_train_returns_None train args_3_7 some_kwargs (world0 "INFO"))
    as (Hany & _ & _).
  split; [reflexivity |]. split; [reflexivity |].
  split; [exact (Hdisabled eq_refl (VInt 7) 1 eq_refl) |].
  split; [reflexivity |]. split; [reflexivity |]. split; [reflexivity |].
  split; [| exact Hany].
  apply (Henabled 20 (descriptions 30) "priority_codes" priorities "model");
    try reflexivity.
  - intros x. by exists (VInt 7), (x + 1).
  - intros x. by exists tt, (x + 1).
  - intros m x. by exists priorities, (x + 1).
  - intros y p n x. by eexists _, (x + 1).
  - intros y p x. by exists 1, (x + 1).
  - intros y p x. by exists 1, (x + 1).
  - intros y p x. by exists 1, (x + 1).
  - intros _. split; [left; by eexists | by eexists].
Defined.


(** [log_train_drops_kwargs] with one keyword, on a function that counts
    the keywords it is given, on one that takes none, and on one that
    raises. *)
Lemma log_train_drops_kwargs_witness :
  log_train count_kwargs args_3_7 some_kwargs (world0 "INFO")
  = log_train count_kwargs args_3_7 [] (world0 "INFO")
  /\ get_level (f_name count_kwargs) (logging_level (w_session (world0 "DO NOT LOG"))) = None
  /\ w_calls (state_of (log_train count_kwargs args_3_7 some_kwargs (world0 "DO NOT LOG")))
     = [CallFunc "count_kwargs" args_3_7 []]
  /\ get_level (f_name count_kwargs) (logging_level (w_session (world0 "INFO"))) = Some 20
  /\ args_3_7 !! 1%nat = Some (VSeries "Resolution" labels_3_7)
  /\ (exists evs,
       w_calls (state_of (log_train count_kwargs args_3_7 some_kwargs (world0 "INFO")))
       = CallFunc "count_kwargs" args_3_7 [] :: evs)
  /\ f_call no_keywords args_3_7 some_kwargs 0
     = Raise (TypeError "got an unexpected keyword argument") 0
  /\ (exists w',
       log_train no_keywords args_3_7 some_kwargs (world0 "DO NOT LOG") = Return VNone w'
       /\ w_ext w' = 1)
  /\ (exists w',
       log_train failing args_3_7 some_kwargs (world0 "INFO") = Raise value_error w'
       /\ w_ext w' = 1
       /\ w_calls w' = [CallFunc "failing" args_3_7 []]).
Proof.
  destruct (log_train_drops_kwargs count_kwargs args_3_7 some_kwargs (world0 "INFO"))
    as (Hsame & _ & _ & Henabled & _).
  destruct (log_train_drops_kwargs count_kwargs args_3_7 some_kwargs (world0 "DO NOT LOG"))
    as (_ & _ & Hdisabled & _).
  destruct (log_train_drops_kwargs no_keywords args_3_7 some_kwargs (world0 "DO NOT LOG"))
    as (_ & _ & _ & _ & Hrun & _).
  destruct (log_train_drops_kwargs failing args_3_7 some_kwargs (world0 "INFO"))
    as (_ & _ & _ & _ & _ & Hraise).
  split; [exact Hsame |]. split; [reflexivity |].
  split; [exact (Hdisabled eq_refl) |].
  split; [reflexivity |]. split; [reflexivity |].
  split; [exact (Henabled 20 "Resolution" labels_3_7 eq_refl eq_refl) |].
  split; [reflexivity |].
  split; [exact (Hrun eq_refl) |].
  exact (Hraise 20 "Resolution" labels_3_7 eq_refl eq_refl).
Defined.

(** [binary_branch_iff_at_most_two_labels] on the labels 3 and 7. *)
Lemma binary_branch_iff_at_most_two_labels_witness :
  get_level (f_name train) (logging_level (w_session (world0 "INFO"))) = Some 20
  /\ args_3_7 !! 0%nat = Some (descriptions 20)
  /\ args_3_7 !! 1%nat = Some (VSeries "Resolution" labels_3_7)
  /\ last args_3_7 = Some (VStr "model")
  /\ f_call train args_3_7 [] (w_ext (world0 "INFO")) = Return (VInt 7) 1
  /\ pickle_load ("model" +:+ ".sav") 1 = Return tt 2
  /\ cross_val_predict tt (descriptions 20) (VSeries "Resolution" labels_3_7) 10 4 2
     = Return labels_3_7 3
  /\ length (unique labels_3_7) = 2%nat
  /\ exists L',
       log_train train args_3_7 some_kwargs (world0 "INFO") =
       (let! result :=
          binary_report "Resolution" labels_3_7 labels_3_7 ["0"; "1"] 0 in
        do! logger_info "train" result in
        ret VNone)
         (mkWorld (session0 "INFO") L' 3
            [CallFunc "train" args_3_7 [];
             PickleLoad "model.sav";
             CrossValPredict (descriptions 20) (VSeries "Resolution" labels_3_7) 10 4]).
Proof.
  repeat (split; [reflexivity |]).
  destruct (binary_branch_iff_at_most_two_labels train args_3_7 some_kwargs
              (world0 "INFO") 20 (descriptions 20) "Resolution" labels_3_7 "model"
              (VInt 7) 1 tt 2 labels_3_7 3
              eq_refl eq_refl eq_refl eq_refl eq_refl eq_refl eq_refl)
    as (_ & _ & L' & Heq).
  exists L'. exact Heq.
Defined.


(** [multiclass_area_name_from_lowered_name] on a series named "Priority". *)
Lemma multiclass_area_name_from_lowered_name_witness :
  get_level (f_name train) (logging_level (w_session (world0 "INFO"))) = Some 20
  /\ args_Priority !! 0%nat = Some (descriptions 30)
  /\ args_Priority !! 1%nat = Some (VSeries "Priority" priorities)
  /\ last args_Priority = Some (VStr "model")
  /\ f_call train args_Priority [] (w_ext (world0 "INFO")) = Return (VInt 7) 1
  /\ pickle_load ("model" +:+ ".sav") 1 = Return tt 2
  /\ cross_val_predict tt (descriptions 30) (VSeries "Priority" priorities) 10 4 2
     = Return priorities 3
  /\ (2 < length (unique priorities))%nat
  /\ is_Some (as_ints priorities)
  /\ is_substring "priority" (lower "Priority")
  /\ areas_name_of "Priority" = "priority"
  /\ exists y_true,
       w_calls (state_of (log_train train args_Priority some_kwargs (world0 "INFO")))
       = [CallFunc "train" args_Priority [];
          PickleLoad "model.sav";
          CrossValPredict (descriptions 30) (VSeries "Priority" priorities) 10 4;
          ClassificationReport y_true priorities ["Low"; "Medium"; "High"]].
Proof.
  repeat (split; [reflexivity |]).
  split; [vm_compute; lia |]. split; [by eexists |].
  assert (Hsub : is_substring "priority" (lower "Priority")) by (by exists "", "").
  split; [exact Hsub |].
  destruct (multiclass_area_name_from_lowered_name train args_Priority some_kwargs
              (world0 "INFO") 20 (descriptions 30) "Priority" priorities "model"
              (VInt 7) 1 tt 2 priorities 3
              eq_refl eq_refl eq_refl eq_refl eq_refl eq_refl eq_refl
              ltac:(vm_compute; lia) (or_introl (ex_intro _ _ eq_refl)))
    as (Hprio & _ & _ & Hclasses & _).
  split; [exact (Hprio Hsub) |].
  exact (Hclasses ["Low"; "Medium"; "High"] eq_refl).
Defined.

End Witnesses.

(** * Further properties of the module *)

(** ** The bootstrap, call after call *)

Section BootstrapStates.
Context `{X : Externals}.

(** X1. The first enabled bootstrap of a logger that has no handler creates
    the directory of the day unless it is there, opens the session's log file
    (created empty, or kept with the lines it has), gives the logger one
    rotating handler on that file, bounded to 50 MiB and 10 backups, and sets
    the logger's level; no other logger is touched. *)
Theorem bootstrap_installs_session_handler (func : PyFunc) (w : World) (lv : Z) :
  get_level (f_name func) (logging_level (w_session w)) = Some lv ->
  logger_handlers (f_name func) (w_logging w) = [] ->
  exists L',
    load_base_loggers_config func w = Return (Some (f_name func)) (set_logging L' w)
    /\ registry L' !! f_name func
       = Some (mkLogger lv [mkHandler (session_log w) 52428800 10])
    /\ (forall name, name <> f_name func ->
        registry L' !! name = registry (w_logging w) !! name)
    /\ dirs L' = {[ "logs/" +:+ today (w_ext w) +:+ "/" ]} ∪ dirs (w_logging w)
    /\ files L'
       = <[session_log w := lines_of (w_logging w) (session_log w)]> (files (w_logging w)).
Proof.
  intros Hlv Hnil. unfold load_base_loggers_config, bind, getLogger, gets.
  destruct w as [s L x c]. simpl in *.
  assert (Hlv' : lv = logging.INFO \/ lv = logging.ERROR)
    by (destruct (get_level_Some _ _ _ Hlv) as [[_ ->] | [_ ->]]; auto).
  unfold session_log, lines_of, logger_handlers in *. simpl in *.
  set (d := "logs/" +:+ today x +:+ "/").
  assert (Hother : forall (r : gmap string Logger) f g name,
             name <> f_name func ->
             alter f (f_name func) (alter g (f_name func) r) !! name = r !! name)
    by (intros r f g name Hne; by rewrite !lookup_alter_ne).
  destruct (registry L !! f_name func) as [lg |] eqn:Hreg; simpl in Hnil; simpl;
    rewrite Hlv;
    (replace (negb (truthy_level (Some lv))) with false by (by destruct Hlv' as [-> | ->]));
    unfold logger_handlers; simpl.
  - rewrite lookup_alter_eq, Hreg. simpl. rewrite Hnil. simpl.
    unfold makedirs. simpl.
    destruct (decide (d ∈ dirs L)) as [Hin | Hout];
      [rewrite (bool_decide_eq_true_2 _ Hin)
      | rewrite (bool_decide_eq_false_2 _ Hout); simpl;
        destruct (decide _) as [? | _]; [contradiction |]];
      simpl; (eexists; split; [reflexivity |]);
      (split; [simpl; by rewrite !lookup_alter_eq, Hreg; simpl; rewrite Hnil |]);
      (split; [intros name Hne; simpl; by apply Hother |]);
      simpl; split; try done.
    apply set_eq. intros y. rewrite elem_of_union, elem_of_singleton.
    split; [by right | by intros [-> | ?]].
  - rewrite lookup_alter_eq, lookup_insert_eq. simpl.
    unfold makedirs. simpl.
    destruct (decide (d ∈ dirs L)) as [Hin | Hout];
      [rewrite (bool_decide_eq_true_2 _ Hin)
      | rewrite (bool_decide_eq_false_2 _ Hout); simpl;
        destruct (decide _) as [? | _]; [contradiction |]];
      simpl; (eexists; split; [reflexivity |]);
      (split; [simpl; by rewrite !lookup_alter_eq, lookup_insert_eq |]);
      (split; [intros name Hne; simpl; rewrite Hother by done; by rewrite lookup_insert_ne |]);
      simpl; split; try done.
    apply set_eq. intros y. rewrite elem_of_union, elem_of_singleton.
    split; [by right | by intros [-> | ?]].
Qed.

(** X2. A logger that already has a handler keeps it: an enabled bootstrap
    only sets the logger's level to the one the session asks for. It creates
    no directory and no file and installs nothing, even when the session
    identifier or the date differ from those the handler was opened under. *)
Theorem bootstrap_keeps_existing_handler (func : PyFunc) (w : World) (lv : Z)
    (lg : Logger) :
  get_level (f_name func) (logging_level (w_session w)) = Some lv ->
  registry (w_logging w) !! f_name func = Some lg ->
  lg_handlers lg <> [] ->
  exists L',
    load_base_loggers_config func w = Return (Some (f_name func)) (set_logging L' w)
    /\ registry L' = <[f_name func := mkLogger lv (lg_handlers lg)]> (registry (w_logging w))
    /\ dirs L' = dirs (w_logging w)
    /\ files L' = files (w_logging w).
Proof.
  intros Hlv Hreg Hne. unfold load_base_loggers_config, bind, getLogger, gets.
  destruct w as [s L x c]. simpl in *.
  assert (Hlv' : lv = logging.INFO \/ lv = logging.ERROR)
    by (destruct (get_level_Some _ _ _ Hlv) as [[_ ->] | [_ ->]]; auto).
  rewrite Hreg. simpl. rewrite Hlv.
  replace (negb (truthy_level (Some lv))) with false by (by destruct Hlv' as [-> | ->]).
  unfold logger_handlers. simpl. rewrite lookup_alter_eq, Hreg. simpl.
  destruct (lg_handlers lg) as [| h hs] eqn:Hhs; [done |]. simpl.
  eexists. split; [reflexivity |]. simpl. repeat split.
  apply map_eq. intros name. destruct (decide (name = f_name func)) as [-> | Hn].
  - by rewrite lookup_alter_eq, lookup_insert_eq, Hreg; simpl; rewrite Hhs.
  - by rewrite lookup_alter_ne, lookup_insert_ne.
Qed.


(** A logger at the level asked for and with a handler: the bootstrap
    changes nothing. *)
Lemma bootstrap_stable (func : PyFunc) (w : World) (lv : Z) (hs : list Handler) :
  get_level (f_name func) (logging_level (w_session w)) = Some lv ->
  registry (w_logging w) !! f_name func = Some (mkLogger lv hs) ->
  hs <> [] ->
  load_base_loggers_config func w = Return (Some (f_name func)) w.
Proof.
  intros Hlv Hreg Hne. unfold load_base_loggers_config, bind, getLogger, gets.
  destruct w as [s [r d f] x c]. simpl in *.
  assert (Hlv' : lv = logging.INFO \/ lv = logging.ERROR)
    by (destruct (get_level_Some _ _ _ Hlv) as [[_ ->] | [_ ->]]; auto).
  rewrite Hreg. simpl. rewrite Hlv.
  replace (negb (truthy_level (Some lv))) with false by (by destruct Hlv' as [-> | ->]).
  unfold logger_handlers. simpl. rewrite lookup_alter_eq, Hreg. simpl.
  destruct hs as [| h hs]; [done |]. simpl.
  unfold ret, set_logging, set_registry. simpl. do 3 f_equal.
  apply map_eq. intros name. destruct (decide (name = f_name func)) as [-> | Hn].
  - by rewrite lookup_alter_eq, Hreg.
  - by rewrite lookup_alter_ne.
Qed.

(** X3. The bootstrap is idempotent: run again on the world it has just
    left, it returns the same answer and leaves that world as it is. No
    second handler is attached, no second directory or file made. *)
Theorem bootstrap_idempotent (func : PyFunc) (w : World) :
  load_base_loggers_config func (state_of (load_base_loggers_config func w))
  = load_base_loggers_config func w.
Proof.
  destruct (get_level (f_name func) (logging_level (w_session w))) as [lv |] eqn:Hlv.
  - destruct (load_base_loggers_config_enabled func w lv Hlv)
      as (L' & Hcfg & _ & Hreg & _).
    rewrite Hcfg. simpl.
    apply (bootstrap_stable func (set_logging L' w) lv _ Hlv Hreg).
    by destruct (logger_handlers _ _).
  - unfold load_base_loggers_config, bind, getLogger, gets.
    destruct w as [s L x c]. simpl in *.
    destruct (registry L !! f_name func) as [lg |] eqn:Hreg; simpl; rewrite Hlv; simpl.
    + by rewrite Hreg; simpl; rewrite Hlv.
    + by rewrite lookup_insert_eq; simpl; rewrite Hlv.
Qed.

End BootstrapStates.

(** ** A handler, once installed *)

Section InstalledHandler.
Context `{X : Externals}.

Lemma handlers_kept_refl (w : World) : handlers_kept w w.
Proof. by intros name. Qed.

Lemma handlers_kept_trans (w1 w2 w3 : World) :
  handlers_kept w1 w2 -> handlers_kept w2 w3 -> handlers_kept w1 w3.
Proof.
  intros H12 H23 name Hne. rewrite <- (H12 name Hne). apply H23.
  by rewrite (H12 name Hne).
Qed.

Lemma kept_external {A} (ev : Event) (f : Ext -> Outcome Ext A) :
  True -> preserves handlers_kept (external ev f).
Proof. intros _ w name _. unfold external. by destruct (f (w_ext w)). Qed.

Lemma kept_logger_log (levelno : Z) (logger : LoggerRef) (msg : string) :
  preserves handlers_kept (logger_log levelno logger msg).
Proof.
  intros w name _. unfold logger_log.
  destruct (registry (w_logging w) !! logger); [| done].
  by destruct (_ <=? _).
Qed.

Lemma kept_load_base_loggers_config (func : PyFunc) :
  preserves handlers_kept (load_base_loggers_config func).
Proof.
  intros w name Hne.
  destruct (get_level (f_name func) (logging_level (w_session w))) as [lv |] eqn:Hlv.
  - destruct (load_base_loggers_config_enabled func w lv Hlv)
      as (L' & -> & _ & Hreg & Hother).
    simpl. unfold logger_handlers in *.
    destruct (decide (name = f_name func)) as [-> | Hn].
    + rewrite Hreg. simpl.
      by destruct (from_option lg_handlers [] (registry (w_logging w) !! f_name func)).
    + by rewrite Hother.
  - destruct (load_base_loggers_config_disabled func w Hlv) as (L' & -> & _ & _ & Hh).
    simpl. by rewrite Hh.
Qed.

(** X5. Once a logger has a handler, no decorated call replaces it or adds
    another, for whatever function, arguments, session and outcome: the file
    chosen when the handler was installed stays the destination of that
    logger. *)
Theorem installed_handler_is_kept (func : PyFunc) (args : list PyVal)
    (kwargs : Kwargs) (w : World) (name : string) :
  logger_handlers name (w_logging w) <> [] ->
  logger_handlers name (w_logging (state_of (log func args kwargs w)))
  = logger_handlers name (w_logging w)
  /\ logger_handlers name (w_logging (state_of (log_train func args kwargs w)))
     = logger_handlers name (w_logging w).
Proof.
  intros Hne. split.
  - by apply (preserves_log handlers_kept handlers_kept_refl handlers_kept_trans
                (fun _ => True) (@kept_external) kept_logger_log
                kept_load_base_loggers_config func args kwargs I w name).
  - by apply (preserves_log_train handlers_kept handlers_kept_refl handlers_kept_trans
                (fun _ => True) (fun _ _ => I) (@kept_external) kept_logger_log
                kept_load_base_loggers_config func args kwargs I w name).
Qed.

End InstalledHandler.

(** ** The call logger, whatever happens *)

Section CallLoggerAlways.
Context `{X : Externals}.

(** X6. [log] runs the wrapped function exactly once, on the positional and
    keyword arguments it was given and in the external state it was entered
    with, and asks nothing else of its collaborators. At every level its
    outcome is that of this one application: it returns the value the
    function returns and raises the exception the function raises, in the
    external state the application left. *)
Theorem log_calls_function_once (func : PyFunc) (args : list PyVal) (kwargs : Kwargs)
    (w : World) :
  w_calls (state_of (log func args kwargs w))
  = w_calls w ++ [CallFunc (f_name func) args kwargs]
  /\ match f_call func args kwargs (w_ext w) with
     | Return v x' =>
         exists w', log func args kwargs w = Return v w' /\ w_ext w' = x'
     | Raise e x' =>
         exists w', log func args kwargs w = Raise e w' /\ w_ext w' = x'
     end.
Proof.
  destruct (get_level (f_name func) (logging_level (w_session w))) as [lv |] eqn:Hlv.
  - destruct (load_base_loggers_config_enabled func w lv Hlv) as (L' & Hcfg & _).
    unfold log, bind. rewrite Hcfg.
    unfold datetime_now, gets, try_except_Exception, call, external. simpl.
    destruct (f_call func args kwargs (w_ext w)) as [v x' | e x']; simpl.
    + unfold logger_info.
      match goal with
      | |- context [logger_log ?l ?n ?m ?w2] =>
          destruct (logger_log_returns l n m w2) as (L2 & ->)
      end.
      split; [done | by eexists].
    + destruct (isinstance_Exception e); [| split; [done | by eexists]].
      unfold logger_error.
      match goal with
      | |- context [logger_log ?l ?n ?m ?w2] =>
          destruct (logger_log_returns l n m w2) as (L2 & ->)
      end.
      split; [done | by eexists].
  - destruct (load_base_loggers_config_disabled func w Hlv) as (L' & Hcfg & _).
    unfold log, bind. rewrite Hcfg. unfold call, external. simpl.
    destruct (f_call func args kwargs (w_ext w)); (split; [done | by eexists]).
Qed.

(** X7. With logging disabled [log] is the wrapped function: it returns
    what the function returns and raises what it raises, exceptions are not
    caught, and no directory, file, handler or line is made. *)
Theorem log_disabled_is_transparent (func : PyFunc) (args : list PyVal)
    (kwargs : Kwargs) (w : World) :
  get_level (f_name func) (logging_level (w_session w)) = None ->
  let o := log func args kwargs w in
  dirs (w_logging (state_of o)) = dirs (w_logging w)
  /\ files (w_logging (state_of o)) = files (w_logging w)
  /\ (forall name,
        logger_handlers name (w_logging (state_of o))
        = logger_handlers name (w_logging w))
  /\ match f_call func args kwargs (w_ext w) with
     | Return v x' => exists w', o = Return v w' /\ w_ext w' = x'
     | Raise e x' => exists w', o = Raise e w' /\ w_ext w' = x'
     end.
Proof.
  intros Hlv o. subst o.
  destruct (load_base_loggers_config_disabled func w Hlv) as (L' & Hcfg & Hd & Hf & Hh).
  unfold log, bind. rewrite Hcfg. unfold call, external. simpl.
  destruct (f_call func args kwargs (w_ext w)); simpl; repeat split; eauto.
Qed.

End CallLoggerAlways.

(** ** The training report builder off the success path *)

Section TrainingEdges.
Context `{X : Externals}.

(** X8. With logging enabled, [log_train] takes its arguments apart before
    it calls the wrapped function: with fewer than two positional arguments
    it raises [IndexError], with a second argument that is not a Series it
    raises [AttributeError]; in both cases the function is not called and no
    line is written. (With logging disabled the same arguments go to the
    function unexamined.) *)
Theorem log_train_rejects_malformed_arguments (func : PyFunc) (args : list PyVal)
    (kwargs : Kwargs) (w : World) (lv : Z) :
  get_level (f_name func) (logging_level (w_session w)) = Some lv ->
  ((length args < 2)%nat ->
   exists w',
     log_train func args kwargs w = Raise (IndexError "tuple index out of range") w'
     /\ w_calls w' = w_calls w
     /\ forall path, lines_of (w_logging w') path = lines_of (w_logging w) path)
  /\ (forall v,
        args !! 1%nat = Some v ->
        (forall name values, v <> VSeries name values) ->
        exists w',
          log_train func args kwargs w
          = Raise (AttributeError "object has no attribute 'unique'") w'
          /\ w_calls w' = w_calls w
          /\ forall path, lines_of (w_logging w') path = lines_of (w_logging w) path).
Proof.
  intros Hlv.
  destruct (load_base_loggers_config_enabled func w lv Hlv) as (L' & Hcfg & Hlines & _).
  split.
  - intros Hlen. unfold log_train, bind at 1. rewrite Hcfg.
    destruct args as [| a [| b rest]]; [| | simpl in Hlen; lia].
    + eexists. split; [reflexivity |]. by split.
    + eexists. split; [reflexivity |]. by split.
  - intros v H1 Hv.
    destruct (lookup_1_inv args _ H1) as (descr & model_path & H0 & Hl).
    unfold log_train, bind at 1. rewrite Hcfg.
    unfold bind at 1.
    rewrite (getitem_nat args 0 descr _ H0 : getitem args 0 _ = _).
    unfold bind at 1.
    rewrite (getitem_nat args 1 _ _ H1 : getitem args 1 _ = _).
    unfold bind at 1. rewrite (getitem_last args model_path _ Hl).
    destruct v as [| z | s | name values]; try (eexists; split; [reflexivity |]; by split).
    by destruct (Hv name values).
Qed.

(** What follows the call of the wrapped function leaves the logging state
    alone until the report is handed to the logger. *)
Lemma same_external {A} (ev : Event) (f : Ext -> Outcome Ext A) :
  True -> preserves logging_same (external ev f).
Proof. intros _ w. unfold external, logging_same. by destruct (f (w_ext w)). Qed.

Lemma logging_same_refl (w : World) : logging_same w w.
Proof. reflexivity. Qed.

Lemma logging_same_trans (w1 w2 w3 : World) :
  logging_same w1 w2 -> logging_same w2 w3 -> logging_same w1 w3.
Proof. unfold logging_same. congruence. Qed.

Lemma same_get_prediction (descr areas model_path : PyVal) :
  preserves logging_same (__get_prediction descr areas model_path).
Proof.
  apply (preserves_get_prediction logging_same logging_same_refl logging_same_trans
           (fun _ => True) (fun _ _ => I) (@same_external)).
Qed.

Lemma same_report (name : string) (values prediction : list Scalar)
    (target_names : list string) (start : Z) (b : bool) :
  preserves logging_same
    (if b then binary_report name values prediction target_names start
     else multiclass_report name values prediction start).
Proof.
  destruct b.
  - apply (preserves_binary_report logging_same logging_same_refl logging_same_trans
             (fun _ => True) (fun _ _ => I) (@same_external)).
  - apply (preserves_multiclass_report logging_same logging_same_refl logging_same_trans
             (fun _ => True) (fun _ _ => I) (@same_external)).
Qed.

Lemma after_training_raise (logger : LoggerRef) (descr model_path : PyVal)
    (name : string) (values : list Scalar) (start : Z) (w2 : World) (e : PyExc)
    (w' : World) :
  (let! prediction := __get_prediction descr (VSeries name values) model_path in
   let! result :=
     (if names_within_01 (str_nat <$> range (length (unique values)))
      then binary_report name values prediction
             (str_nat <$> range (length (unique values))) start
      else multiclass_report name values prediction start) in
   do! logger_info logger result in
   ret VNone) w2 = Raise e w' ->
  w_logging w' = w_logging w2.
Proof.
  unfold bind at 1.
  pose proof (same_get_prediction descr (VSeries name values) model_path w2) as H1.
  destruct (__get_prediction _ _ _ w2) as [prediction w3 | e3 w3]; simpl in H1;
    [| intros H; by inversion H; subst].
  unfold bind at 1.
  pose proof (same_report name values prediction
                (str_nat <$> range (length (unique values))) start
                (names_within_01 (str_nat <$> range (length (unique values)))) w3) as H2.
  set (m := if names_within_01 _ then _ else _) in *.
  destruct (m w3) as [result w4 | e4 w4];
    simpl in H2; [| intros H; inversion H; subst; unfold logging_same in *; congruence].
  unfold bind at 1, logger_info.
  destruct (logger_log_returns logging.INFO logger result w4) as (L4 & ->).
  discriminate.
Qed.

(** X9. Once the wrapped function has returned, nothing that goes wrong in
    [log_train] is logged: whatever exception leaves the decorator after
    that point (a model file that cannot be read, a failed cross-validation
    or metric, a missing class list), the log files hold exactly the lines
    they held before the call. The [try] covers the call of the function
    alone. *)
Theorem evaluation_failure_is_not_logged (func : PyFunc) (args : list PyVal)
    (kwargs : Kwargs) (w : World) (lv : Z) (name : string) (values : list Scalar)
    (r : PyVal) (x1 : Ext) (e : PyExc) (w' : World) :
  get_level (f_name func) (logging_level (w_session w)) = Some lv ->
  args !! 1%nat = Some (VSeries name values) ->
  f_call func args [] (w_ext w) = Return r x1 ->
  log_train func args kwargs w = Raise e w' ->
  forall path, lines_of (w_logging w') path = lines_of (w_logging w) path.
Proof.
  intros Hlv H1 Hf Hraise path.
  destruct (load_base_loggers_config_enabled func w lv Hlv) as (L' & Hcfg & Hlines & _).
  destruct (lookup_1_inv args _ H1) as (descr & model_path & H0 & Hl).
  rewrite (log_train_enabled func args kwargs w _ _ descr model_path name values
             Hcfg H0 H1 Hl) in Hraise.
  unfold train_and_report in Hraise.
  unfold bind at 1, datetime_now, gets in Hraise.
  unfold bind at 1, try_except_Exception, call, external in Hraise.
  simpl in Hraise. rewrite Hf in Hraise.
  apply after_training_raise in Hraise. rewrite Hraise. simpl. apply Hlines.
Qed.

(** X10. The model path is the last positional argument and must be text:
    when it is not, the function is called and returns, and then
    [log_train] raises [TypeError] before any model is loaded. A call with
    two positional arguments is such a case, the area series being the last
    argument. *)
Theorem log_train_needs_a_text_model_path (func : PyFunc) (args : list PyVal)
    (kwargs : Kwargs) (w : World) (lv : Z) (name : string) (values : list Scalar)
    (model_path : PyVal) (r : PyVal) (x1 : Ext) :
  get_level (f_name func) (logging_level (w_session w)) = Some lv ->
  args !! 1%nat = Some (VSeries name values) ->
  last args = Some model_path ->
  (forall p, model_path <> VStr p) ->
  f_call func args [] (w_ext w) = Return r x1 ->
  exists w',
    log_train func args kwargs w = Raise (TypeError "unsupported operand for +") w'
    /\ w_ext w' = x1
    /\ w_calls w' = w_calls w ++ [CallFunc (f_name func) args []].
Proof.
  intros Hlv H1 Hl Hmp Hf.
  destruct (load_base_loggers_config_enabled func w lv Hlv) as (L' & Hcfg & _).
  destruct (lookup_1_inv args _ H1) as (descr & mp' & H0 & Hl').
  assert (mp' = model_path) as -> by congruence.
  rewrite (log_train_enabled func args kwargs w _ _ descr model_path name values
             Hcfg H0 H1 Hl).
  unfold train_and_report.
  unfold bind at 1, datetime_now, gets.
  unfold bind at 1, try_except_Exception, call, external. simpl. rewrite Hf.
  unfold bind at 1, __get_prediction. unfold bind at 1, add_str.
  destruct model_path as [| z | p | n vs];
    try (eexists; split; [reflexivity |]; by split).
  by destruct (Hmp p).
Qed.

(** X11. A model that cannot be loaded ends the run: the exception raised
    by the loader leaves [log_train] as it is, after the function was called
    and returned, and no cross-validation is asked for. The file asked for is
    the model path followed by ".sav". *)
Theorem model_load_failure_ends_the_run (func : PyFunc) (args : list PyVal)
    (kwargs : Kwargs) (w : World) (lv : Z) (descr : PyVal) (name : string)
    (values : list Scalar) (path : string) (r : PyVal) (x1 : Ext) (e : PyExc)
    (x2 : Ext) :
  get_level (f_name func) (logging_level (w_session w)) = Some lv ->
  args !! 0%nat = Some descr ->
  args !! 1%nat = Some (VSeries name values) ->
  last args = Some (VStr path) ->
  f_call func args [] (w_ext w) = Return r x1 ->
  pickle_load (path +:+ ".sav") x1 = Raise e x2 ->
  exists w',
    log_train func args kwargs w = Raise e w'
    /\ w_ext w' = x2
    /\ w_calls w' = w_calls w ++ [CallFunc (f_name func) args [];
                                  PickleLoad (path +:+ ".sav")].
Proof.
  intros Hlv H0 H1 Hl Hf Hp.
  destruct (load_base_loggers_config_enabled func w lv Hlv) as (L' & Hcfg & _).
  rewrite (log_train_enabled func args kwargs w _ _ descr _ name values Hcfg H0 H1 Hl).
  unfold train_and_report.
  unfold bind at 1, datetime_now, gets.
  unfold bind at 1, try_except_Exception, call, external. simpl. rewrite Hf.
  unfold bind at 1, __get_prediction, bind, add_str, ret, external. simpl.
  rewrite Hp. eexists. split; [reflexivity |]. simpl. split; [done |].
  by rewrite <- app_assoc.
Qed.

End TrainingEdges.

(** ** The line of a training report *)

Section ReportLine.
Context `{X : Externals}.

(** The enabled run up to the choice of the branch, with what the bootstrap
    left behind for a logger that had at most one handler. *)
Lemma log_train_reaches_report_ready (func : PyFunc) (args : list PyVal)
    (kwargs : Kwargs) (w : World) (lv : Z) (descr : PyVal) (name : string)
    (values : list Scalar) (path : string) (r : PyVal) (x1 : Ext) (m : Model)
    (x2 : Ext) (prediction : list Scalar) (x3 : Ext) :
  get_level (f_name func) (logging_level (w_session w)) = Some lv ->
  (length (logger_handlers (f_name func) (w_logging w)) <= 1)%nat ->
  args !! 0%nat = Some descr ->
  args !! 1%nat = Some (VSeries name values) ->
  last args = Some (VStr path) ->
  f_call func args [] (w_ext w) = Return r x1 ->
  pickle_load (path +:+ ".sav") x1 = Return m x2 ->
  cross_val_predict m descr (VSeries name values) 10 4 x2 = Return prediction x3 ->
  exists L' h,
    (forall path, lines_of L' path = lines_of (w_logging w) path)
    /\ registry L' !! f_name func = Some (mkLogger lv [h])
    /\ h_filename h = sink func w
    /\ (lv <=? logging.INFO) = bool_decide (logging_level (w_session w) = "INFO")
    /\ log_train func args kwargs w =
       (let! result :=
          (if bool_decide (length (unique values) <= 2)%nat
           then binary_report name values prediction
                  (str_nat <$> range (length (unique values))) (now (w_ext w))
           else multiclass_report name values prediction (now (w_ext w))) in
        do! logger_info (f_name func) result in
        ret VNone)
         (mkWorld (w_session w) L' x3
            (w_calls w ++ [CallFunc (f_name func) args [];
                           PickleLoad (path +:+ ".sav");
                           CrossValPredict descr (VSeries name values) 10 4])).
Proof.
  intros Hlv Hlen H0 H1 Hl Hf Hp Hc.
  destruct (bootstrap_ready func w lv Hlv Hlen)
    as (L' & h & Hcfg & Hlines & Hreg & Hsink & Hlv').
  exists L', h. repeat split; try done.
  - destruct (get_level_Some _ _ _ Hlv) as [[-> ->] | [-> ->]]; reflexivity.
  - rewrite (log_train_enabled func args kwargs w _ _ descr _ name values Hcfg H0 H1 Hl).
    unfold train_and_report. rewrite names_within_01_decide.
    unfold bind at 1, datetime_now, gets.
    unfold bind at 1, try_except_Exception, call, external. simpl. rewrite Hf.
    unfold bind at 1, __get_prediction, bind, add_str, ret, external. simpl.
    rewrite Hp. simpl. rewrite Hc. simpl.
    by rewrite <- !app_assoc.
Qed.

(** A report that has been built is handed to the logger, and [None]
    returned. *)
Lemma report_is_logged (logger : LoggerRef) (result : string) (w4 : World)
    (lv : Z) (h : Handler) :
  registry (w_logging w4) !! logger = Some (mkLogger lv [h]) ->
  lv = logging.INFO \/ lv = logging.ERROR ->
  exists L4,
    (do! logger_info logger result in ret VNone) w4 = Return VNone (set_logging L4 w4)
    /\ appended (w_logging w4) L4 (h_filename h)
         (if lv <=? logging.INFO
          then [mkLine (asctime (w_ext w4)) logger logging.INFO result] else []).
Proof.
  intros Hreg Hlv.
  destruct (logger_log_single logging.INFO logger result w4 lv h Hreg Hlv)
    as (L4 & Hlog & _ & Happ).
  exists L4. split; [| done]. unfold bind, logger_info. by rewrite Hlog.
Qed.

(** X12. The binary report, end to end. With at most two distinct labels
    and collaborators that return, [log_train] calls, in this order, the
    function, the loader on the model path followed by ".sav", the
    cross-validation with 10 folds and 4 jobs, the classification report on
    the labels and predictions as they are with the positional names, and the
    three scores; it returns [None]. At level "INFO" it appends one info
    line: elapsed time, the name of the area series, the classification
    report and the three scores under their names; the elapsed time is read
    before the metrics are computed. At level "ERROR" all of this is computed
    and no line is written. *)
Theorem binary_report_line (func : PyFunc) (args : list PyVal) (kwargs : Kwargs)
    (w : World) (lv : Z) (descr : PyVal) (name : string) (values : list Scalar)
    (path : string) (r : PyVal) (x1 : Ext) (m : Model) (x2 : Ext)
    (prediction : list Scalar) (x3 : Ext) (cr : string) (x4 : Ext)
    (acc : Score) (x5 : Ext) (auc : Score) (x6 : Ext) (mcc : Score) (x7 : Ext) :
  get_level (f_name func) (logging_level (w_session w)) = Some lv ->
  (length (logger_handlers (f_name func) (w_logging w)) <= 1)%nat ->
  args !! 0%nat = Some descr ->
  args !! 1%nat = Some (VSeries name values) ->
  last args = Some (VStr path) ->
  f_call func args [] (w_ext w) = Return r x1 ->
  pickle_load (path +:+ ".sav") x1 = Return m x2 ->
  cross_val_predict m descr (VSeries name values) 10 4 x2 = Return prediction x3 ->
  (length (unique values) <= 2)%nat ->
  classification_report values prediction
    (str_nat <$> range (length (unique values))) x3 = Return cr x4 ->
  accuracy_score values prediction x4 = Return acc x5 ->
  roc_auc_score values prediction x5 = Return auc x6 ->
  matthews_corrcoef values prediction x6 = Return mcc x7 ->
  exists w',
    log_train func args kwargs w = Return VNone w'
    /\ w_ext w' = x7
    /\ w_calls w'
       = w_calls w ++ [CallFunc (f_name func) args [];
                       PickleLoad (path +:+ ".sav");
                       CrossValPredict descr (VSeries name values) 10 4;
                       ClassificationReport values prediction
                         (str_nat <$> range (length (unique values)));
                       AccuracyScore values prediction;
                       RocAucScore values prediction;
                       MatthewsCorrcoef values prediction]
    /\ appended (w_logging w) (w_logging w') (sink func w)
         (if bool_decide (logging_level (w_session w) = "INFO")
          then [mkLine (asctime x7) (f_name func) logging.INFO
                  (nl +:+ "total execution time: "
                   +:+ str_timedelta (now x3 - now (w_ext w)) +:+ " " +:+ nl
                   +:+ "areas_name: " +:+ name +:+ " " +:+ nl
                   +:+ cr +:+ nl
                   +:+ "accuracy_score " +:+ str_score acc +:+ nl
                   +:+ "roc_auc_score " +:+ str_score auc +:+ nl
                   +:+ "matthews_corrcoef " +:+ str_score mcc +:+ nl)]
          else []).
Proof.
  intros Hlv Hlen H0 H1 Hl Hf Hp Hc Hn Hcr Hacc Hauc Hmcc.
  destruct (log_train_reaches_report_ready func args kwargs w lv descr name values path
              r x1 m x2 prediction x3 Hlv Hlen H0 H1 Hl Hf Hp Hc)
    as (L' & h & Hlines & Hreg & Hsink & Hinfo & ->).
  rewrite (bool_decide_eq_true_2 _ Hn).
  unfold bind at 1, binary_report, bind, datetime_now, gets, external, ret. simpl.
  rewrite Hcr. simpl. rewrite Hacc. simpl. rewrite Hauc. simpl.
  rewrite Hmcc. simpl.
  match goal with
  | |- context [logger_info ?l ?msg ?w4] =>
      destruct (report_is_logged l msg w4 lv h Hreg) as (L4 & Hlog & Happ)
  end.
  { destruct (get_level_Some _ _ _ Hlv) as [[_ ->] | [_ ->]]; auto. }
  unfold bind, ret in Hlog. rewrite Hlog. eexists. split; [reflexivity |].
  simpl. split; [done |]. split; [by rewrite <- !app_assoc |].
  rewrite <- Hsink, <- Hinfo. apply (appended_after _ L'); [done |].
  exact Happ.
Qed.


(** X13. The multi-class report, end to end. With three or more distinct
    labels of one kind, the class names of the area configured and
    collaborators that return, [log_train] asks for one classification report
    after the cross-validation and returns [None]. At level "INFO" it appends
    one info line: elapsed time, the area name found in the series name (not
    the series name itself), and the classification report, with no score
    after it. At level "ERROR" no line is written. *)
Theorem multiclass_report_line (func : PyFunc) (args : list PyVal) (kwargs : Kwargs)
    (w : World) (lv : Z) (descr : PyVal) (name : string) (values : list Scalar)
    (path : string) (r : PyVal) (x1 : Ext) (m : Model) (x2 : Ext)
    (prediction : list Scalar) (x3 : Ext) (y_true : list Scalar)
    (classes : list string) (cr : string) (x4 : Ext) :
  get_level (f_name func) (logging_level (w_session w)) = Some lv ->
  (length (logger_handlers (f_name func) (w_logging w)) <= 1)%nat ->
  args !! 0%nat = Some descr ->
  args !! 1%nat = Some (VSeries name values) ->
  last args = Some (VStr path) ->
  f_call func args [] (w_ext w) = Return r x1 ->
  pickle_load (path +:+ ".sav") x1 = Return m x2 ->
  cross_val_predict m descr (VSeries name values) 10 4 x2 = Return prediction x3 ->
  (2 < length (unique values))%nat ->
  sorted values w = Return y_true w ->
  predictions_parameters (w_session w) !! (areas_name_of name +:+ "_classes")
  = Some classes ->
  classification_report y_true prediction classes x3 = Return cr x4 ->
  exists w',
    log_train func args kwargs w = Return VNone w'
    /\ w_ext w' = x4
    /\ w_calls w'
       = w_calls w ++ [CallFunc (f_name func) args [];
                       PickleLoad (path +:+ ".sav");
                       CrossValPredict descr (VSeries name values) 10 4;
                       ClassificationReport y_true prediction classes]
    /\ appended (w_logging w) (w_logging w') (sink func w)
         (if bool_decide (logging_level (w_session w) = "INFO")
          then [mkLine (asctime x4) (f_name func) logging.INFO
                  (nl +:+ "total execution time: "
                   +:+ str_timedelta (now x3 - now (w_ext w)) +:+ " " +:+ nl
                   +:+ "areas_name: " +:+ areas_name_of name +:+ " " +:+ nl
                   +:+ cr)]
          else []).
Proof.
  intros Hlv Hlen H0 H1 Hl Hf Hp Hc Hn Hsorted Hkey Hcr.
  destruct (log_train_reaches_report_ready func args kwargs w lv descr name values path
              r x1 m x2 prediction x3 Hlv Hlen H0 H1 Hl Hf Hp Hc)
    as (L' & h & Hlines & Hreg & Hsink & Hinfo & ->).
  rewrite bool_decide_eq_false_2 by lia.
  set (w3 := mkWorld _ _ _ _).
  unfold bind at 1.
  rewrite (multiclass_report_run name values prediction y_true (now (w_ext w)) w3
             classes (sorted_any_world values y_true w w3 Hsorted) Hkey).
  unfold bind at 1, external. simpl. rewrite Hcr. unfold ret at 1.
  match goal with
  | |- context [bind (logger_info ?l ?msg) _ ?w4] =>
      destruct (report_is_logged l msg w4 lv h Hreg) as (L4 & Hlog & Happ)
  end.
  { destruct (get_level_Some _ _ _ Hlv) as [[_ ->] | [_ ->]]; auto. }
  rewrite Hlog. eexists. split; [reflexivity |].
  simpl. split; [done |]. split; [by rewrite <- !app_assoc |].
  rewrite <- Hsink, <- Hinfo. apply (appended_after _ L'); [done |].
  exact Happ.
Qed.

Lemma sorted_mixed (values : list Scalar) (z : Z) (s : string) (w : World) :
  SInt z ∈ values -> SStr s ∈ values ->
  sorted values w
  = Raise (TypeError "'<' not supported between instances of 'str' and 'int'") w.
Proof.
  intros Hz Hs. unfold sorted.
  assert (as_ints values = None) as ->.
  { apply mapM_None, Exists_exists. by exists (SStr s). }
  assert (as_strs values = None) as ->; [| done].
  apply mapM_None, Exists_exists. by exists (SInt z).
Qed.

(** X14. Labels of both kinds stop the multi-class report: with three or
    more distinct labels among which an integer and a text, the true labels
    cannot be sorted and [log_train] raises [TypeError] after the
    cross-validation, before any classification report is asked for. (The
    binary branch does not sort and has no such failure.) *)
Theorem multiclass_mixed_labels_raise (func : PyFunc) (args : list PyVal)
    (kwargs : Kwargs) (w : World) (lv : Z) (descr : PyVal) (name : string)
    (values : list Scalar) (path : string) (r : PyVal) (x1 : Ext) (m : Model)
    (x2 : Ext) (prediction : list Scalar) (x3 : Ext) (z : Z) (s : string) :
  get_level (f_name func) (logging_level (w_session w)) = Some lv ->
  args !! 0%nat = Some descr ->
  args !! 1%nat = Some (VSeries name values) ->
  last args = Some (VStr path) ->
  f_call func args [] (w_ext w) = Return r x1 ->
  pickle_load (path +:+ ".sav") x1 = Return m x2 ->
  cross_val_predict m descr (VSeries name values) 10 4 x2 = Return prediction x3 ->
  (2 < length (unique values))%nat ->
  SInt z ∈ values ->
  SStr s ∈ values ->
  exists w',
    log_train func args kwargs w
    = Raise (TypeError "'<' not supported between instances of 'str' and 'int'") w'
    /\ w_calls w'
       = w_calls w ++ [CallFunc (f_name func) args [];
                       PickleLoad (path +:+ ".sav");
                       CrossValPredict descr (VSeries name values) 10 4].
Proof.
  intros Hlv H0 H1 Hl Hf Hp Hc Hn Hz Hs.
  destruct (log_train_reaches_report func args kwargs w lv descr name values path
              r x1 m x2 prediction x3 Hlv H0 H1 Hl Hf Hp Hc) as (L' & ->).
  rewrite names_within_01_decide, bool_decide_eq_false_2 by lia.
  set (w3 := mkWorld _ _ _ _).
  unfold bind at 1, multiclass_report. unfold bind at 1, datetime_now, gets.
  unfold bind at 1. rewrite (sorted_mixed values z s _ Hz Hs).
  by eexists.
Qed.

End ReportLine.

(** ** The file of the first session *)

Section FirstSession.
Context `{X : Externals}.

Lemma bind_Return {A B} (m : Py A) (k : A -> Py B) (w w1 : World) (a : A) :
  m w = Return a w1 -> bind m k w = k a w1.
Proof. intros H. unfold bind. by rewrite H. Qed.

(** After an enabled bootstrap the decorators run as from the world it
    left. *)
Lemma decorators_after_bootstrap (func : PyFunc) (args : list PyVal) (kwargs : Kwargs)
    (w : World) (lv : Z) :
  get_level (f_name func) (logging_level (w_session w)) = Some lv ->
  exists L',
    load_base_loggers_config func w = Return (Some (f_name func)) (set_logging L' w)
    /\ registry L' !! f_name func
       = Some (mkLogger lv
                 match logger_handlers (f_name func) (w_logging w) with
                 | [] => [mkHandler (session_log w) (50 * 1024 * 1024) 10]
                 | hs => hs
                 end)
    /\ log func args kwargs w = log func args kwargs (set_logging L' w)
    /\ log_train func args kwargs w = log_train func args kwargs (set_logging L' w).
Proof.
  intros Hlv.
  destruct (load_base_loggers_config_enabled func w lv Hlv)
    as (L' & Hcfg & _ & Hreg & _).
  exists L'. split; [done |]. split; [done |].
  assert (Hagain : load_base_loggers_config func (set_logging L' w)
                   = Return (Some (f_name func)) (set_logging L' w)).
  { apply (bootstrap_stable func (set_logging L' w) lv _ Hlv Hreg).
    by destruct (logger_handlers _ _). }
  split.
  - unfold log. by rewrite (bind_Return _ _ _ _ _ Hcfg), (bind_Return _ _ _ _ _ Hagain).
  - unfold log_train.
    by rewrite (bind_Return _ _ _ _ _ Hcfg), (bind_Return _ _ _ _ _ Hagain).
Qed.

(** X15. The log file of a function is that of the first session that
    logged it. After the first enabled call of either decorator on a function
    whose logger had no handler, the logger has exactly one handler, on
    logs/<date>/<session id>.log of that call; this holds whether the
    function returned or raised and whatever the arguments. From then on the
    destination [sink] of the logger is that file in every later world with
    this logging state, whatever its session identifier and date. *)
Theorem first_session_file_is_kept (func : PyFunc) (args : list PyVal)
    (kwargs : Kwargs) (w : World) (lv : Z) :
  get_level (f_name func) (logging_level (w_session w)) = Some lv ->
  logger_handlers (f_name func) (w_logging w) = [] ->
  logger_handlers (f_name func) (w_logging (state_of (log func args kwargs w)))
  = [mkHandler (session_log w) 52428800 10]
  /\ logger_handlers (f_name func) (w_logging (state_of (log_train func args kwargs w)))
     = [mkHandler (session_log w) 52428800 10]
  /\ (forall later : World,
        w_logging later = w_logging (state_of (log func args kwargs w))
        \/ w_logging later = w_logging (state_of (log_train func args kwargs w)) ->
        sink func later = session_log w).
Proof.
  intros Hlv Hnil.
  destruct (decorators_after_bootstrap func args kwargs w lv Hlv)
    as (L' & _ & Hreg & Hlog & Htrain).
  rewrite Hnil in Hreg.
  assert (H1 : logger_handlers (f_name func) (w_logging (set_logging L' w))
               = [mkHandler (session_log w) 52428800 10])
    by (unfold logger_handlers; simpl; by rewrite Hreg).
  assert (Hne : logger_handlers (f_name func) (w_logging (set_logging L' w)) <> [])
    by (by rewrite H1).
  assert (Ha : logger_handlers (f_name func) (w_logging (state_of (log func args kwargs w)))
               = [mkHandler (session_log w) 52428800 10]).
  { rewrite Hlog, <- H1.
    by apply (preserves_log handlers_kept handlers_kept_refl handlers_kept_trans
                (fun _ => True) (@kept_external X) kept_logger_log
                kept_load_base_loggers_config func args kwargs I (set_logging L' w)). }
  assert (Hb : logger_handlers (f_name func)
                 (w_logging (state_of (log_train func args kwargs w)))
               = [mkHandler (session_log w) 52428800 10]).
  { rewrite Htrain, <- H1.
    by apply (preserves_log_train handlers_kept handlers_kept_refl handlers_kept_trans
                (fun _ => True) (fun _ _ => I) (@kept_external X) kept_logger_log
                kept_load_base_loggers_config func args kwargs I (set_logging L' w)). }
  split; [exact Ha |]. split; [exact Hb |].
  intros later [Hl | Hl]; unfold sink; rewrite Hl; [by rewrite Ha | by rewrite Hb].
Qed.

End FirstSession.

(** ** These properties on concrete calls *)

Section FurtherWitnesses.
Import Demo.

(** [bootstrap_installs_session_handler] on the first call for [train]. *)
Lemma bootstrap_installs_session_handler_witness :
  get_level (f_name train) (logging_level (w_session (world0 "INFO"))) = Some 20
  /\ logger_handlers (f_name train) (w_logging (world0 "INFO")) = []
  /\ exists L',
       load_base_loggers_config train (world0 "INFO")
       = Return (Some "train") (set_logging L' (world0 "INFO"))
       /\ registry L' !! "train"
          = Some (mkLogger 20 [mkHandler "logs/2019-05-01/s1.log" 52428800 10])
       /\ dirs L' = {[ "logs/2019-05-01/" ]}
       /\ files L' = {[ "logs/2019-05-01/s1.log" := [] ]}.
Proof.
  split; [reflexivity |]. split; [reflexivity |].
  destruct (bootstrap_installs_session_handler train (world0 "INFO") 20 eq_refl eq_refl)
    as (L' & Hcfg & Hreg & _ & Hdirs & Hfiles).
  exists L'. split; [exact Hcfg |]. split; [exact Hreg |].
  split; [rewrite Hdirs | rewrite Hfiles]; vm_compute; reflexivity.
Defined.

(** [bootstrap_keeps_existing_handler] in a later session at level "ERROR". *)
Lemma bootstrap_keeps_existing_handler_witness :
  get_level (f_name train) (logging_level (w_session later_session_world)) = Some 40
  /\ registry (w_logging later_session_world) !! f_name train
     = Some (mkLogger 20 [mkHandler "logs/2019-05-01/s1.log" 52428800 10])
  /\ exists L',
       load_base_loggers_config train later_session_world
       = Return (Some "train") (set_logging L' later_session_world)
       /\ registry L'
          = {[ "train" := mkLogger 40 [mkHandler "logs/2019-05-01/s1.log" 52428800 10] ]}
       /\ dirs L' = dirs (w_logging later_session_world)
       /\ files L' = files (w_logging later_session_world).
Proof.
  split; [reflexivity |]. split; [vm_compute; reflexivity |].
  destruct (bootstrap_keeps_existing_handler train later_session_world 40
              (mkLogger 20 [mkHandler "logs/2019-05-01/s1.log" 52428800 10])
              eq_refl ltac:(vm_compute; reflexivity) ltac:(discriminate))
    as (L' & Hcfg & Hreg & Hdirs & Hfiles).
  exists L'. split; [exact Hcfg |]. split; [| by split].
  rewrite Hreg. vm_compute. reflexivity.
Defined.

(** [installed_handler_is_kept] on a call in a later session. *)
Lemma installed_handler_is_kept_witness :
  logger_handlers "train" (w_logging later_session_world) <> []
  /\ logger_handlers "train"
       (w_logging (state_of (log train args_3_7 some_kwargs later_session_world)))
     = [mkHandler "logs/2019-05-01/s1.log" 52428800 10]
  /\ logger_handlers "train"
       (w_logging (state_of (log_train train args_3_7 some_kwargs later_session_world)))
     = [mkHandler "logs/2019-05-01/s1.log" 52428800 10].
Proof.
  assert (Hne : logger_handlers "train" (w_logging later_session_world) <> [])
    by (vm_compute; discriminate).
  split; [exact Hne |].
  destruct (installed_handler_is_kept train args_3_7 some_kwargs later_session_world
              "train" Hne) as [Hlog Htrain].
  split; [rewrite Hlog | rewrite Htrain]; vm_compute; reflexivity.
Defined.

(** [log_disabled_is_transparent] on a function that raises. *)
Lemma log_disabled_is_transparent_witness :
  get_level (f_name failing) (logging_level (w_session (world0 "DO NOT LOG"))) = None
  /\ files (w_logging (state_of (log failing args_3_7 some_kwargs (world0 "DO NOT LOG"))))
     = ∅
  /\ exists w',
       log failing args_3_7 some_kwargs (world0 "DO NOT LOG") = Raise value_error w'
       /\ w_ext w' = 1.
Proof.
  split; [reflexivity |].
  destruct (log_disabled_is_transparent failing args_3_7 some_kwargs
              (world0 "DO NOT LOG") eq_refl) as (_ & Hfiles & _ & Hraise).
  split; [exact Hfiles | exact Hraise].
Defined.

(** [log_train_rejects_malformed_arguments] on one positional argument, and
    on a number in place of the area series. *)
Lemma log_train_rejects_malformed_arguments_witness :
  get_level (f_name train) (logging_level (w_session (world0 "INFO"))) = Some 20
  /\ (length args_one < 2)%nat
  /\ (exists w',
        log_train train args_one some_kwargs (world0 "INFO")
        = Raise (IndexError "tuple index out of range") w'
        /\ w_calls w' = [])
  /\ args_no_series !! 1%nat = Some (VInt 3)
  /\ (exists w',
        log_train train args_no_series some_kwargs (world0 "INFO")
        = Raise (AttributeError "object has no attribute 'unique'") w'
        /\ w_calls w' = []).
Proof.
  split; [reflexivity |]. split; [vm_compute; lia |].
  destruct (log_train_rejects_malformed_arguments train args_one some_kwargs
              (world0 "INFO") 20 eq_refl) as [Hshort _].
  destruct (log_train_rejects_malformed_arguments train args_no_series some_kwargs
              (world0 "INFO") 20 eq_refl) as [_ Hkind].
  split.
  - destruct (Hshort ltac:(vm_compute; lia)) as (w' & Hraise & Hcalls & _).
    by exists w'.
  - split; [reflexivity |].
    destruct (Hkind (VInt 3) eq_refl ltac:(discriminate)) as (w' & Hraise & Hcalls & _).
    by exists w'.
Defined.

(** [evaluation_failure_is_not_logged] on a model that is not on disk. *)
Lemma evaluation_failure_is_not_logged_witness :
  get_level (f_name train) (logging_level (w_session (world0 "INFO"))) = Some 20
  /\ args_missing_model !! 1%nat = Some (VSeries "Resolution" labels_3_7)
  /\ f_call train args_missing_model [] (w_ext (world0 "INFO")) = Return (VInt 7) 1
  /\ raised (log_train train args_missing_model some_kwargs (world0 "INFO"))
     = Some (mkExc (ExceptionSub "FileNotFoundError") "missing.sav")
  /\ forall path,
       lines_of
         (w_logging (state_of (log_train train args_missing_model some_kwargs
                                 (world0 "INFO")))) path
       = lines_of (w_logging (world0 "INFO")) path.
Proof.
  split; [reflexivity |]. split; [reflexivity |]. split; [reflexivity |].
  split; [vm_compute; reflexivity |].
  apply (evaluation_failure_is_not_logged train args_missing_model some_kwargs
           (world0 "INFO") 20 "Resolution" labels_3_7 (VInt 7) 1
           (mkExc (ExceptionSub "FileNotFoundError") "missing.sav")
           (state_of (log_train train args_missing_model some_kwargs (world0 "INFO")))
           eq_refl eq_refl eq_refl).
  vm_compute. reflexivity.
Defined.

(** [log_train_needs_a_text_model_path] on a call with two positional
    arguments. *)
Lemma log_train_needs_a_text_model_path_witness :
  get_level (f_name train) (logging_level (w_session (world0 "INFO"))) = Some 20
  /\ args_two !! 1%nat = Some (VSeries "Resolution" labels_3_7)
  /\ last args_two = Some (VSeries "Resolution" labels_3_7)
  /\ f_call train args_two [] (w_ext (world0 "INFO")) = Return (VInt 7) 1
  /\ exists w',
       log_train train args_two some_kwargs (world0 "INFO")
       = Raise (TypeError "unsupported operand for +") w'
       /\ w_ext w' = 1
       /\ w_calls w' = [CallFunc "train" args_two []].
Proof.
  split; [reflexivity |]. split; [reflexivity |]. split; [reflexivity |].
  split; [reflexivity |].
  exact (log_train_needs_a_text_model_path train args_two some_kwargs (world0 "INFO") 20
           "Resolution" labels_3_7 (VSeries "Resolution" labels_3_7) (VInt 7) 1
           eq_refl eq_refl eq_refl ltac:(discriminate) eq_refl).
Defined.

(** [model_load_failure_ends_the_run] on a model that is not on disk. *)
Lemma model_load_failure_ends_the_run_witness :
  get_level (f_name train) (logging_level (w_session (world0 "INFO"))) = Some 20
  /\ last args_missing_model = Some (VStr "missing")
  /\ f_call train args_missing_model [] (w_ext (world0 "INFO")) = Return (VInt 7) 1
  /\ pickle_load ("missing" +:+ ".sav") 1
     = Raise (mkExc (ExceptionSub "FileNotFoundError") "missing.sav") 1
  /\ exists w',
       log_train train args_missing_model some_kwargs (world0 "INFO")
       = Raise (mkExc (ExceptionSub "FileNotFoundError") "missing.sav") w'
       /\ w_ext w' = 1
       /\ w_calls w' = [CallFunc "train" args_missing_model []; PickleLoad "missing.sav"].
Proof.
  split; [reflexivity |]. split; [reflexivity |]. split; [reflexivity |].
  split; [reflexivity |].
  exact (model_load_failure_ends_the_run train args_missing_model some_kwargs
           (world0 "INFO") 20 (descriptions 20) "Resolution" labels_3_7 "missing"
           (VInt 7) 1 (mkExc (ExceptionSub "FileNotFoundError") "missing.sav") 1
           eq_refl eq_refl eq_refl eq_refl eq_refl eq_refl).
Defined.

(** [binary_report_line] on the labels 3 and 7 at level "INFO". *)
Lemma binary_report_line_witness :
  get_level (f_name train) (logging_level (w_session (world0 "INFO"))) = Some 20
  /\ (length (logger_handlers (f_name train) (w_logging (world0 "INFO"))) <= 1)%nat
  /\ (length (unique labels_3_7) <= 2)%nat
  /\ exists w',
       log_train train args_3_7 some_kwargs (world0 "INFO") = Return VNone w'
       /\ w_ext w' = 7
       /\ appended (w_logging (world0 "INFO")) (w_logging w') "logs/2019-05-01/s1.log"
            [mkLine "7" "train" logging.INFO
               (nl +:+ "total execution time: 3 " +:+ nl
                +:+ "areas_name: Resolution " +:+ nl
                +:+ "report/2" +:+ nl
                +:+ "accuracy_score 1" +:+ nl
                +:+ "roc_auc_score 1" +:+ nl
                +:+ "matthews_corrcoef 1" +:+ nl)].
Proof.
  split; [reflexivity |]. split; [vm_compute; lia |]. split; [vm_compute; lia |].
  destruct (binary_report_line train args_3_7 some_kwargs (world0 "INFO") 20
              (descriptions 20) "Resolution" labels_3_7 "model" (VInt 7) 1 tt 2
              labels_3_7 3 "report/2" 4 1 5 1 6 1 7
              eq_refl ltac:(vm_compute; lia) eq_refl eq_refl eq_refl eq_refl eq_refl
              eq_refl ltac:(vm_compute; lia) eq_refl eq_refl eq_refl eq_refl)
    as (w' & Hret & Hext & _ & Happ).
  exists w'. split; [exact Hret |]. split; [exact Hext |]. exact Happ.
Defined.

(** [multiclass_report_line] on thirty priorities at level "INFO". *)
Lemma multiclass_report_line_witness :
  get_level (f_name train) (logging_level (w_session (world0 "INFO"))) = Some 20
  /\ (length (logger_handlers (f_name train) (w_logging (world0 "INFO"))) <= 1)%nat
  /\ (2 < length (unique priorities))%nat
  /\ sorted priorities (world0 "INFO")
     = Return (replicate 10 (SInt 1) ++ replicate 10 (SInt 2) ++ replicate 10 (SInt 3))
         (world0 "INFO")
  /\ exists w',
       log_train train args_priority some_kwargs (world0 "INFO") = Return VNone w'
       /\ w_ext w' = 4
       /\ appended (w_logging (world0 "INFO")) (w_logging w') "logs/2019-05-01/s1.log"
            [mkLine "4" "train" logging.INFO
               (nl +:+ "total execution time: 3 " +:+ nl
                +:+ "areas_name: priority " +:+ nl
                +:+ "report/3")].
Proof.
  split; [reflexivity |]. split; [vm_compute; lia |]. split; [vm_compute; lia |].
  split; [vm_compute; reflexivity |].
  destruct (multiclass_report_line train args_priority some_kwargs (world0 "INFO") 20
              (descriptions 30) "priority_codes" priorities "model" (VInt 7) 1 tt 2
              priorities 3
              (replicate 10 (SInt 1) ++ replicate 10 (SInt 2) ++ replicate 10 (SInt 3))
              ["Low"; "Medium"; "High"] "report/3" 4
              eq_refl ltac:(vm_compute; lia) eq_refl eq_refl eq_refl eq_refl eq_refl
              eq_refl ltac:(vm_compute; lia) ltac:(vm_compute; reflexivity)
              eq_refl eq_refl)
    as (w' & Hret & Hext & _ & Happ).
  exists w'. split; [exact Hret |]. split; [exact Hext |]. exact Happ.
Defined.

(** [multiclass_mixed_labels_raise] on labels 3, "high" and 2. *)
Lemma multiclass_mixed_labels_raise_witness :
  get_level (f_name train) (logging_level (w_session (world0 "INFO"))) = Some 20
  /\ (2 < length (unique mixed_labels))%nat
  /\ SInt 3 ∈ mixed_labels
  /\ SStr "high" ∈ mixed_labels
  /\ exists w',
       log_train train args_mixed some_kwargs (world0 "INFO")
       = Raise (TypeError "'<' not supported between instances of 'str' and 'int'") w'
       /\ w_calls w'
          = [CallFunc "train" args_mixed [];
             PickleLoad "model.sav";
             CrossValPredict (descriptions 30) (VSeries "priority" mixed_labels) 10 4].
Proof.
  assert (H3 : SInt 3 ∈ mixed_labels) by (vm_compute; apply list_elem_of_here).
  assert (Hh : SStr "high" ∈ mixed_labels)
    by (vm_compute; apply list_elem_of_further, list_elem_of_here).
  split; [reflexivity |]. split; [vm_compute; lia |].
  split; [exact H3 |]. split; [exact Hh |].
  exact (multiclass_mixed_labels_raise train args_mixed some_kwargs (world0 "INFO") 20
           (descriptions 30) "priority" mixed_labels "model" (VInt 7) 1 tt 2
           mixed_labels 3 3 "high"
           eq_refl eq_refl eq_refl eq_refl eq_refl eq_refl eq_refl
           ltac:(vm_compute; lia) H3 Hh).
Defined.

(** [first_session_file_is_kept]: the first call is made in session "s1";
    in the world of session "s2" the destination is still the file of
    "s1". *)
Lemma first_session_file_is_kept_witness :
  get_level (f_name train) (logging_level (w_session (world0 "INFO"))) = Some 20
  /\ logger_handlers (f_name train) (w_logging (world0 "INFO")) = []
  /\ logger_handlers "train"
       (w_logging (state_of (log_train train args_3_7 some_kwargs (world0 "INFO"))))
     = [mkHandler "logs/2019-05-01/s1.log" 52428800 10]
  /\ session_id (w_session later_session_world) = "s2"
  /\ sink train
       (mkWorld (w_session later_session_world)
          (w_logging (state_of (log train args_3_7 some_kwargs (world0 "INFO"))))
          100 [])
     = "logs/2019-05-01/s1.log".
Proof.
  split; [reflexivity |]. split; [reflexivity |].
  destruct (first_session_file_is_kept train args_3_7 some_kwargs (world0 "INFO") 20
              eq_refl eq_refl) as (_ & Htrain & Hsink).
  split; [exact Htrain |]. split; [reflexivity |].
  exact (Hsink _ (or_introl eq_refl)).
Defined.

End FurtherWitnesses.
